(** * The command-channel synchronisation layer of the meta-hybrid_mount web UI

    A shallow embedding of [webui/src/lib/api.ts] and [api.mock.ts]: the
    hex payload codec, the configuration and module-rule services, the status
    aggregator and the accent-colour resolver, all written against an
    execution capability that answers a shell command with an exit code and
    two text streams. *)

From Stdlib Require Import ZArith NArith List String Ascii Bool Lia DecimalString.
From stdpp Require Import gmap.
Import ListNotations.

Set Warnings "-register-all".
#[local] Ltac Zify.zify_post_hook ::= Z.to_euclidean_division_equations.

(** ** JavaScript strings

    A JavaScript string is a finite sequence of 16-bit UTF-16 code units. *)

Definition jsstring : Type := list N.

(** An ASCII literal of the source text. *)
Definition lit (s : string) : jsstring :=
  map N_of_ascii (list_ascii_of_string s).
Arguments lit s%_string.

(** Every element is a 16-bit code unit. *)
Definition is_jsstring (s : jsstring) : bool :=
  forallb (fun c => c <? 0x10000)%N s.

Definition is_high_surrogate (c : N) : bool := ((0xD800 <=? c) && (c <=? 0xDBFF))%N.
Definition is_low_surrogate (c : N) : bool := ((0xDC00 <=? c) && (c <=? 0xDFFF))%N.

(** [String.prototype.isWellFormed]: no lone surrogate. *)
Fixpoint isWellFormed (s : jsstring) : bool :=
  match s with
  | [] => true
  | c :: r =>
      if is_high_surrogate c then
        match r with
        | d :: r' => is_low_surrogate d && isWellFormed r'
        | [] => false
        end
      else negb (is_low_surrogate c) && isWellFormed r
  end.

(** ** The payload codec *)

Module Codec.

(** Conversion of a string to its sequence of Unicode scalar values, as
    [TextEncoder.encode] performs it on its argument: a surrogate pair is one
    supplementary code point, a lone surrogate becomes U+FFFD. *)
Fixpoint to_scalar_values (s : jsstring) : list N :=
  match s with
  | [] => []
  | c :: r =>
      if is_high_surrogate c then
        match r with
        | d :: r' =>
            if is_low_surrogate d
            then (0x10000 + (c - 0xD800) * 0x400 + (d - 0xDC00))%N :: to_scalar_values r'
            else 0xFFFD%N :: to_scalar_values r
        | [] => [0xFFFD%N]
        end
      else if is_low_surrogate c then 0xFFFD%N :: to_scalar_values r
      else c :: to_scalar_values r
  end.

(** The UTF-8 bytes of one scalar value. *)
Definition utf8_encode (cp : N) : list N :=
  (if cp <? 0x80 then [cp]
   else if cp <? 0x800 then [0xC0 + cp / 0x40; 0x80 + cp mod 0x40]
   else if cp <? 0x10000 then
     [0xE0 + cp / 0x40 / 0x40; 0x80 + (cp / 0x40) mod 0x40; 0x80 + cp mod 0x40]
   else
     [0xF0 + cp / 0x40 / 0x40 / 0x40; 0x80 + (cp / 0x40 / 0x40) mod 0x40;
      0x80 + (cp / 0x40) mod 0x40; 0x80 + cp mod 0x40])%N.

(** [new TextEncoder().encode(str)]. *)
Definition TextEncoder_encode (str : jsstring) : list N :=
  flat_map utf8_encode (to_scalar_values str).

Definition hex_digit (d : N) : N :=
  (if d <? 10 then 48 + d else 87 + d)%N.

(** [Number.prototype.toString(16)] on a non-negative integer. *)
Fixpoint toString16_aux (fuel : nat) (n : N) : jsstring :=
  match fuel with
  | O => []
  | S fuel' =>
      if (n <? 16)%N then [hex_digit n]
      else toString16_aux fuel' (n / 16)%N ++ [hex_digit (n mod 16)%N]
  end.

Definition toString16 (n : N) : jsstring := toString16_aux (S (N.size_nat n)) n.

(** The body of the second loop of [stringToHex]: one byte, left-padded to
    two digits. *)
Definition hex_of_byte (b : N) : jsstring :=
  let h := toString16 b in
  if (length h =? 1)%nat then lit "0" ++ h else h.

(** The bytes [stringToHex] works on; the flag says whether the global
    [TextEncoder] exists. *)
Definition payload_bytes (TextEncoder_defined : bool) (str : jsstring) : list N :=
  if TextEncoder_defined then TextEncoder_encode str
  else map (fun c => N.land c 0xff) str.

Definition stringToHex (TextEncoder_defined : bool) (str : jsstring) : jsstring :=
  let bytes := payload_bytes TextEncoder_defined str in
  fold_left (fun hex b => hex ++ hex_of_byte b) bytes [].

End Codec.

(** The two digits of a byte, a lowercase hex digit, a list of bytes. *)
Definition hex_pair (b : N) : jsstring :=
  [Codec.hex_digit (b / 16); Codec.hex_digit (b mod 16)]%N.

Definition is_lower_hex (c : N) : bool :=
  ((48 <=? c) && (c <=? 57) || (97 <=? c) && (c <=? 102))%N.

Definition all_bytes (l : list N) : Prop := Forall (fun b => (b < 256)%N) l.


(** ** String operations of the standard library used by the API *)

(** [WhiteSpace] and [LineTerminator] code units: what [String.prototype.trim]
    strips and what the [\s] class of a regular expression matches. *)
Definition is_line_terminator (c : N) : bool :=
  ((c =? 0x0A) || (c =? 0x0D) || (c =? 0x2028) || (c =? 0x2029))%N.

Definition is_white_space (c : N) : bool :=
  ((c =? 0x09) || (c =? 0x0B) || (c =? 0x0C) || (c =? 0x20) || (c =? 0xA0)
   || (c =? 0x1680) || ((0x2000 <=? c) && (c <=? 0x200A)) || (c =? 0x202F)
   || (c =? 0x205F) || (c =? 0x3000) || (c =? 0xFEFF)
   || is_line_terminator c)%N.

Fixpoint trimStart (s : jsstring) : jsstring :=
  match s with
  | c :: r => if is_white_space c then trimStart r else s
  | [] => []
  end.

Definition trimEnd (s : jsstring) : jsstring := rev (trimStart (rev s)).

Definition trim (s : jsstring) : jsstring := trimEnd (trimStart s).

Fixpoint startsWith (prefix s : jsstring) : bool :=
  match prefix, s with
  | [], _ => true
  | p :: prefix', c :: s' => (p =? c)%N && startsWith prefix' s'
  | _ :: _, [] => false
  end.

Fixpoint includes (needle s : jsstring) : bool :=
  startsWith needle s
  || match s with
     | [] => false
     | _ :: s' => includes needle s'
     end.

(** [s.substring(n)] for a literal [n >= 0]. *)
Definition substring_from (n : nat) (s : jsstring) : jsstring := skipn n s.

(** [s.substring(0, n)]; a negative [n] counts as [0]. *)
Definition substring_to (n : Z) (s : jsstring) : jsstring := firstn (Z.to_nat n) s.

(** [s.split(sep)] for a separator of one code unit. *)
Fixpoint split (sep : N) (s : jsstring) : list jsstring :=
  match s with
  | [] => [[]]
  | c :: r =>
      if (c =? sep)%N then [] :: split sep r
      else match split sep r with
           | l :: ls => (c :: l) :: ls
           | [] => [[c]]
           end
  end.

(** [s.lastIndexOf(c)] for a one-unit needle: the index, or [-1]. *)
Fixpoint lastIndexOf_from (c : N) (i : Z) (s : jsstring) (found : Z) : Z :=
  match s with
  | [] => found
  | d :: r => lastIndexOf_from c (i + 1) r (if (d =? c)%N then i else found)
  end.

Definition lastIndexOf (c : N) (s : jsstring) : Z := lastIndexOf_from c 0 s (-1).

(** Truthiness of a string: it is not empty. *)
Definition nonempty (s : jsstring) : bool :=
  match s with [] => false | _ :: _ => true end.

(** ** Regular expressions

    The fragment of the pattern language the API uses, with the backtracking
    semantics of [RegExp.prototype.exec]: greedy quantifiers, leftmost
    alternative first, one capturing group. *)

Module Regex.

Inductive regex : Type :=
| Empty
| Char (p : N -> bool)                  (* one code unit of a class *)
| Seq (r1 r2 : regex)
| Alt (r1 r2 : regex)
| Opt (r : regex)                       (* r? *)
| Star (p : N -> bool)                  (* [class]* *)
| Rep (p : N -> bool) (lo hi : nat)     (* [class]{lo,hi} *)
| Group (r : regex)                     (* ( r ), group 1 *)
| Bol (multiline : bool)                (* ^ *)
| Eol (multiline : bool).               (* $ *)

(** The state of a match: the code unit before the current position, if
    any, and the rest of the input. *)
Fixpoint star {A} (p : N -> bool) (prev : option N) (s : jsstring)
    (k : option N -> jsstring -> option A) : option A :=
  match s with
  | c :: s' =>
      if p c then
        match star p (Some c) s' k with
        | Some a => Some a
        | None => k prev s
        end
      else k prev s
  | [] => k prev s
  end.

Fixpoint rep {A} (p : N -> bool) (lo hi : nat) (prev : option N) (s : jsstring)
    (k : option N -> jsstring -> option A) : option A :=
  match hi with
  | O => match lo with O => k prev s | S _ => None end
  | S hi' =>
      let stop := match lo with O => k prev s | S _ => None end in
      match s with
      | c :: s' =>
          if p c then
            match rep p (Nat.pred lo) hi' (Some c) s' k with
            | Some a => Some a
            | None => stop
            end
          else stop
      | [] => stop
      end
  end.

Fixpoint run {A} (r : regex) (prev : option N) (s : jsstring) (cap : option jsstring)
    (k : option N -> jsstring -> option jsstring -> option A) : option A :=
  match r with
  | Empty => k prev s cap
  | Char p =>
      match s with
      | c :: s' => if p c then k (Some c) s' cap else None
      | [] => None
      end
  | Seq r1 r2 => run r1 prev s cap (fun prev' s' cap' => run r2 prev' s' cap' k)
  | Alt r1 r2 =>
      match run r1 prev s cap k with
      | Some a => Some a
      | None => run r2 prev s cap k
      end
  | Opt r1 =>
      match run r1 prev s cap k with
      | Some a => Some a
      | None => k prev s cap
      end
  | Star p => star p prev s (fun prev' s' => k prev' s' cap)
  | Rep p lo hi => rep p lo hi prev s (fun prev' s' => k prev' s' cap)
  | Group r1 =>
      run r1 prev s cap
        (fun prev' s' _ => k prev' s' (Some (firstn (length s - length s') s)))
  | Bol multiline =>
      match prev with
      | None => k prev s cap
      | Some c => if multiline && is_line_terminator c then k prev s cap else None
      end
  | Eol multiline =>
      match s with
      | [] => k prev s cap
      | c :: _ => if multiline && is_line_terminator c then k prev s cap else None
      end
  end.

(** The search of [exec]: the first start position with a match wins. *)
Fixpoint search (r : regex) (prev : option N) (s : jsstring) : option (option jsstring) :=
  match run r prev s None (fun _ _ cap => Some cap) with
  | Some cap => Some cap
  | None =>
      match s with
      | [] => None
      | c :: s' => search r (Some c) s'
      end
  end.

(** [re.exec(s)?.[1]]: the text of group 1 of the first match. *)
Definition exec1 (r : regex) (s : jsstring) : option jsstring :=
  match search r None s with
  | Some cap => cap
  | None => None
  end.

(** [re.test(s)]. *)
Definition test (r : regex) (s : jsstring) : bool :=
  match search r None s with Some _ => true | None => false end.

Definition seq (rs : list regex) : regex := fold_right Seq Empty rs.

(** Case folding of the [i] flag; only the ASCII letters fold onto ASCII. *)
Definition fold_case (c : N) : N :=
  (if (97 <=? c) && (c <=? 122) then c - 32 else c)%N.

Definition chr (c : N) : regex := Char (N.eqb c).
Definition chr_i (c : N) : regex := Char (fun x => (fold_case x =? fold_case c)%N).

(** A literal run of the pattern, without and with the [i] flag. *)
Definition text (s : jsstring) : regex := seq (map chr s).
Definition text_i (s : jsstring) : regex := seq (map chr_i s).

Definition is_hex (c : N) : bool :=
  ((48 <=? c) && (c <=? 57) || (97 <=? c) && (c <=? 102) || (65 <=? c) && (c <=? 70))%N.

Definition is_quote (c : N) : bool := ((c =? 34) || (c =? 39))%N.

(** [.] : any code unit but a line terminator. *)
Definition is_dot (c : N) : bool := negb (is_line_terminator c).

End Regex.

(** ** JSON values and the services of the JavaScript engine *)

(** What [JSON.parse] can return.  An object is a finite map from property
    names to values. *)
Inductive json (number : Type) : Type :=
| JNull
| JBool (b : bool)
| JNum (n : number)
| JStr (s : jsstring)
| JArr (l : list (json number))
| JObj (m : gmap jsstring (json number)).
Arguments JNull {number}.
Arguments JBool {number} b.
Arguments JNum {number} n.
Arguments JStr {number} s.
Arguments JArr {number} l.
Arguments JObj {number} m.

(** The engine's own functions, which the source calls and does not define:
    the number type with its truthiness and its decimal text, [JSON.parse]
    ([None] is a thrown [SyntaxError]), [JSON.stringify], and whether a
    global [TextEncoder] exists. *)
Class Builtins : Type := {
  number : Type;
  number_truthy : number -> bool;
  number_toString : number -> jsstring;
  JSON_parse : jsstring -> option (json number);
  JSON_stringify : json number -> jsstring;
  TextEncoder_defined : bool
}.

Abbreviation value := (json number).
Abbreviation object := (gmap jsstring (json number)).

Section Values.
Context `{Builtins}.

(** [ToBoolean]. *)
Definition truthy (v : value) : bool :=
  match v with
  | JNull => false
  | JBool b => b
  | JNum n => number_truthy n
  | JStr s => nonempty s
  | JArr _ => true
  | JObj _ => true
  end.

(** [v.key] for a name that no prototype defines: [None] is [undefined];
    the outer [None] is the [TypeError] of reading a property of [null]. *)
Definition get_property (v : value) (key : jsstring) : option (option value) :=
  match v with
  | JNull => None
  | JObj m => Some (m !! key)
  | _ => Some None
  end.

(** [x || y] where [x] may be [undefined]. *)
Definition or_else (x : option value) (y : value) : value :=
  match x with
  | Some v => if truthy v then v else y
  | None => y
  end.

(** The decimal text of an array index. *)
Definition index_key (i : nat) : jsstring :=
  lit (NilZero.string_of_uint (Nat.to_uint i)).

(** The own enumerable properties a spread copies, in order. *)
Definition own_properties (v : value) : list (jsstring * value) :=
  match v with
  | JObj m => map_to_list m
  | JArr l => imap (fun i x => (index_key i, x)) l
  | JStr s => imap (fun i c => (index_key i, JStr [c])) s
  | _ => []
  end.

(** [CopyDataProperties]: what [...src] does inside an object literal. *)
Definition spread (target : object) (src : value) : object :=
  fold_left (fun acc kv => <[kv.1 := kv.2]> acc) (own_properties src) target.

(** [ToString] of a value, as a template literal performs it. *)
Fixpoint ToString (v : value) : jsstring :=
  match v with
  | JNull => lit "null"
  | JBool b => if b then lit "true" else lit "false"
  | JNum n => number_toString n
  | JStr s => s
  | JArr l =>
      let item x := match x with JNull => [] | _ => ToString x end in
      match l with
      | [] => []
      | x :: xs => fold_left (fun acc y => acc ++ lit "," ++ item y) xs (item x)
      end
  | JObj _ => lit "[object Object]"
  end.

(** [`${x}`] where [x] may be [undefined]. *)
Definition template (x : option value) : jsstring :=
  match x with
  | Some v => ToString v
  | None => lit "undefined"
  end.

End Values.

(** The constants of [constants.ts] and [constants_gen.ts], which the source
    imports: the default configuration object, the path of the privileged
    binary, the path of the daemon state file when [PATHS] has one, and the
    version of the build. *)
Class Constants `{Builtins} : Type := {
  DEFAULT_CONFIG : object;
  PATHS_BINARY : jsstring;
  PATHS_DAEMON_STATE : option jsstring;
  APP_VERSION : jsstring
}.

(** ** The execution capability and asynchronous code *)

(** A thrown value. *)
Inductive exn : Type :=
| Error (message : jsstring)
| TypeError (message : jsstring)
| SyntaxError (message : jsstring).

Definition message (e : exn) : jsstring :=
  match e with Error m | TypeError m | SyntaxError m => m end.

Record KsuExecResult : Type := {
  errno : Z;
  stdout : jsstring;
  stderr : jsstring
}.

(** How the promise of one [exec] call settles. *)
Inductive Outcome : Type :=
| Resolved (r : KsuExecResult)
| Rejected (e : exn).

(** An asynchronous function body: it returns, throws, or performs one of
    the three effects of this layer and goes on. *)
Inductive Prog (A : Type) : Type :=
| Ret (a : A)
| Throw (e : exn)
| Exec (cmd : jsstring) (k : Outcome -> Prog A)
| Delay (ms : N) (k : Prog A)
| WindowOpen (url target : jsstring) (k : Prog A).
Arguments Ret {A} a.
Arguments Throw {A} e.
Arguments Exec {A} cmd k.
Arguments Delay {A} ms k.
Arguments WindowOpen {A} url target k.

Fixpoint bind {A B} (p : Prog A) (f : A -> Prog B) : Prog B :=
  match p with
  | Ret a => f a
  | Throw e => Throw e
  | Exec cmd k => Exec cmd (fun o => bind (k o) f)
  | Delay ms k => Delay ms (bind k f)
  | WindowOpen url target k => WindowOpen url target (bind k f)
  end.

(** [try { p } catch (e) { h e }]. *)
Fixpoint try_catch {A} (p : Prog A) (h : exn -> Prog A) : Prog A :=
  match p with
  | Ret a => Ret a
  | Throw e => h e
  | Exec cmd k => Exec cmd (fun o => try_catch (k o) h)
  | Delay ms k => Delay ms (try_catch k h)
  | WindowOpen url target k => WindowOpen url target (try_catch k h)
  end.

Notation "'let*' x ':=' p 'in' q" := (bind p (fun x => q))
  (at level 10, x name, p at level 100, q at level 200).

(** [try { body } catch {}] followed by [return fallback]: the body either
    returns a value from the function or falls through. *)
Definition try_or {A} (body : Prog (option A)) (fallback : A) : Prog A :=
  let* r := try_catch body (fun _ => Ret None) in
  Ret (match r with Some a => a | None => fallback end).

(** The type of [ksu.exec], and the function the [kernelsu] package exports:
    [await] of its promise gives the result or throws the rejection. *)
Definition KsuExec : Type := jsstring -> Prog KsuExecResult.

Definition kernelsu_exec : KsuExec :=
  fun cmd => Exec cmd (fun o =>
    match o with
    | Resolved r => Ret r
    | Rejected e => Throw e
    end).

(** What an observer sees of a run. *)
Inductive event : Type :=
| EvExec (cmd : jsstring)
| EvDelay (ms : N)
| EvOpen (url target : jsstring).

(** The host answers a command knowing the events so far. *)
Definition Host : Type := list event -> jsstring -> Outcome.

Inductive Completion (A : Type) : Type :=
| Returned (a : A)
| Thrown (e : exn).
Arguments Returned {A} a.
Arguments Thrown {A} e.

Fixpoint run_from {A} (host : Host) (log : list event) (p : Prog A)
    : Completion A * list event :=
  match p with
  | Ret a => (Returned a, log)
  | Throw e => (Thrown e, log)
  | Exec cmd k => run_from host (log ++ [EvExec cmd]) (k (host log cmd))
  | Delay ms k => run_from host (log ++ [EvDelay ms]) k
  | WindowOpen url target k => run_from host (log ++ [EvOpen url target]) k
  end.

Definition run {A} (host : Host) (p : Prog A) : Completion A * list event :=
  run_from host [] p.

(** The commands among the events. *)
Definition commands (log : list event) : list jsstring :=
  flat_map (fun e => match e with EvExec cmd => [cmd] | _ => [] end) log.

(** [let x = await p] inside a [try] block whose handler finishes with
    [h]: a rejection leaves the block with the locals as they are at this
    point. *)
Fixpoint await_or {A B} (p : Prog A) (h : Prog B) (k : A -> Prog B) : Prog B :=
  match p with
  | Ret a => k a
  | Throw _ => h
  | Exec cmd k' => Exec cmd (fun o => await_or (k' o) h k)
  | Delay ms k' => Delay ms (await_or k' h k)
  | WindowOpen url target k' => WindowOpen url target (await_or k' h k)
  end.

(** [JSON.parse] as a statement that may throw. *)
Definition parse `{Builtins} (s : jsstring) : Prog value :=
  match JSON_parse s with
  | Some v => Ret v
  | None => Throw (SyntaxError (lit "Unexpected token"))
  end.

(** The double quote and the backslash, for the command templates. *)
Definition dq : jsstring := [34%N].
Definition backslash : jsstring := [92%N].

(** ** The records of [types.ts] *)

Record StorageStatus `{Builtins} : Type := {
  type : value
}.

Record HymoFSState : Type := {
  loaded : bool;
  version : Z;
  active_features : list jsstring;
  error_msg : option jsstring
}.

Record SystemInfo `{Builtins} : Type := {
  kernel : jsstring;
  selinux : jsstring;
  mountBase : value;
  activeMounts : value;
  zygisksuEnforce : option jsstring;
  tmpfs_xattr_supported : option value;
  abi : option jsstring;
  hymofs_state : option HymoFSState
}.

Record DeviceInfo : Type := {
  model : jsstring;
  android : jsstring;
  dev_kernel : jsstring;
  dev_selinux : jsstring
}.

Section InfoUpdates.
Context `{Builtins}.

Definition set_kernel (x : jsstring) (i : SystemInfo) : SystemInfo :=
  {| kernel := x; selinux := selinux i; mountBase := mountBase i;
     activeMounts := activeMounts i; zygisksuEnforce := zygisksuEnforce i;
     tmpfs_xattr_supported := tmpfs_xattr_supported i; abi := abi i;
     hymofs_state := hymofs_state i |}.

Definition set_selinux (x : jsstring) (i : SystemInfo) : SystemInfo :=
  {| kernel := kernel i; selinux := x; mountBase := mountBase i;
     activeMounts := activeMounts i; zygisksuEnforce := zygisksuEnforce i;
     tmpfs_xattr_supported := tmpfs_xattr_supported i; abi := abi i;
     hymofs_state := hymofs_state i |}.

Definition set_mountBase (x : value) (i : SystemInfo) : SystemInfo :=
  {| kernel := kernel i; selinux := selinux i; mountBase := x;
     activeMounts := activeMounts i; zygisksuEnforce := zygisksuEnforce i;
     tmpfs_xattr_supported := tmpfs_xattr_supported i; abi := abi i;
     hymofs_state := hymofs_state i |}.

Definition set_activeMounts (x : value) (i : SystemInfo) : SystemInfo :=
  {| kernel := kernel i; selinux := selinux i; mountBase := mountBase i;
     activeMounts := x; zygisksuEnforce := zygisksuEnforce i;
     tmpfs_xattr_supported := tmpfs_xattr_supported i; abi := abi i;
     hymofs_state := hymofs_state i |}.

Definition set_zygisksuEnforce (x : jsstring) (i : SystemInfo) : SystemInfo :=
  {| kernel := kernel i; selinux := selinux i; mountBase := mountBase i;
     activeMounts := activeMounts i; zygisksuEnforce := Some x;
     tmpfs_xattr_supported := tmpfs_xattr_supported i; abi := abi i;
     hymofs_state := hymofs_state i |}.

(** The fields the state file owns. *)
Definition state_fields (i : SystemInfo) : value * value * option jsstring * option value :=
  (mountBase i, activeMounts i, zygisksuEnforce i, tmpfs_xattr_supported i).

(** The fields the tagged lines own. *)
Definition tagged_fields (i : SystemInfo) : jsstring * jsstring := (kernel i, selinux i).

Definition set_tmpfs_xattr_supported (x : value) (i : SystemInfo) : SystemInfo :=
  {| kernel := kernel i; selinux := selinux i; mountBase := mountBase i;
     activeMounts := activeMounts i; zygisksuEnforce := zygisksuEnforce i;
     tmpfs_xattr_supported := Some x; abi := abi i;
     hymofs_state := hymofs_state i |}.

End InfoUpdates.

(** ** [api.ts]: the static table and the patterns of the colour resolver *)

Definition OVERLAY_COLOR_MAP : list (jsstring * jsstring) :=
  [ (lit "com.android.theme.color.cinnamon", lit "#9F6047");
    (lit "com.android.theme.color.black", lit "#3C3F41");
    (lit "com.android.theme.color.green", lit "#3DDC84");
    (lit "com.android.theme.color.ocean", lit "#009688");
    (lit "com.android.theme.color.space", lit "#475975");
    (lit "com.android.theme.color.orchid", lit "#DA70D6");
    (lit "com.android.theme.color.purple", lit "#9C27B0");
    (lit "org.lineageos.overlay.accent.blue", lit "#4285F4");
    (lit "org.lineageos.overlay.accent.cyan", lit "#00BCD4");
    (lit "org.lineageos.overlay.accent.green", lit "#4CAF50");
    (lit "org.lineageos.overlay.accent.orange", lit "#FF9800");
    (lit "org.lineageos.overlay.accent.pink", lit "#E91E63");
    (lit "org.lineageos.overlay.accent.purple", lit "#9C27B0");
    (lit "org.lineageos.overlay.accent.red", lit "#F44336");
    (lit "org.lineageos.overlay.accent.yellow", lit "#FFEB3B") ].

Module Patterns.
Import Regex.

(** The pattern of the theming settings key, flag [i]: an optional quote,
    one of the two field names, an optional quote, a colon between optional
    blanks, an optional quote, an optional hash and 6 to 8 hex digits. *)
Definition settings : regex :=
  seq [ Opt (Char is_quote);
        Alt (text_i (lit "android.theme.customization.system_palette"))
            (text_i (lit "source_color"));
        Opt (Char is_quote);
        Star is_white_space;
        chr_i 58;
        Star is_white_space;
        Opt (Char is_quote);
        Opt (chr_i 35);
        Group (Rep is_hex 6 8);
        Opt (Char is_quote) ].

(** [/mMainColor=0x([0-9a-fA-F]{8})/i] *)
Definition wallpaper : regex :=
  seq [ text_i (lit "mMainColor=0x"); Group (Rep is_hex 8 8) ].

(** [/^#?[0-9a-fA-F]{6,8}$/] *)
Definition property : regex :=
  seq [ Bol false; Opt (chr 35); Rep is_hex 6 8; Eol false ].

(** [/^version=(.+)$/m] *)
Definition version_line : regex :=
  seq [ Bol true; text (lit "version="); Group (Seq (Char is_dot) (Star is_dot)); Eol true ].

End Patterns.

(** The first element a function accepts: a [for ... of] loop that returns
    from inside. *)
Fixpoint first_some {A B} (f : A -> option B) (l : list A) : option B :=
  match l with
  | [] => None
  | x :: l' => match f x with Some b => Some b | None => first_some f l' end
  end.

(** The four extractors of [fetchSystemColor], each from the output of its
    command to the colour it returns, if it returns. *)
Module Color.

(** [match[1].length === 8 ? match[1].substring(2) : match[1]], behind [#]. *)
Definition strip_alpha (m : jsstring) : jsstring :=
  lit "#" ++ (if (length m =? 8)%nat then substring_from 2 m else m).

Definition from_settings (settingsOut : jsstring) : option jsstring :=
  if nonempty settingsOut then
    match Regex.exec1 Patterns.settings settingsOut with
    | Some m => if nonempty m then Some (strip_alpha m) else None
    | None => None
    end
  else None.

Definition from_wallpaper (dumpOut : jsstring) : option jsstring :=
  if nonempty dumpOut then
    match Regex.exec1 Patterns.wallpaper dumpOut with
    | Some m => if nonempty m then Some (strip_alpha m) else None
    | None => None
    end
  else None.

Definition from_line (line : jsstring) : option jsstring :=
  if includes (lit "[x]") line then
    first_some (fun entry => if includes entry.1 line then Some entry.2 else None)
      OVERLAY_COLOR_MAP
  else None.

Definition from_overlays (overlayOut : jsstring) : option jsstring :=
  if nonempty overlayOut then first_some from_line (split 10 overlayOut)
  else None.

Definition from_property (propOut : jsstring) : option jsstring :=
  if nonempty propOut then
    let trimmed := trim propOut in
    if Regex.test Patterns.property trimmed
    then Some (if startsWith (lit "#") trimmed then trimmed else lit "#" ++ trimmed)
    else None
  else None.

Definition cmd_settings : jsstring :=
  lit "settings get secure theme_customization_overlay_packages".
Definition cmd_wallpaper : jsstring :=
  lit "dumpsys wallpaper | grep -E 'mMainColor|mPrimaryColors|mConnection'".
Definition cmd_overlays : jsstring := lit "cmd overlay list --user current".
Definition cmd_property : jsstring := lit "getprop persist.sys.theme.color".

(** The events after one, two, three and four sources have been asked. *)
Definition asked1 : list event := [EvExec cmd_settings].
Definition asked2 : list event := [EvExec cmd_settings; EvExec cmd_wallpaper].
Definition asked3 : list event :=
  [EvExec cmd_settings; EvExec cmd_wallpaper; EvExec cmd_overlays].
Definition asked4 : list event :=
  [EvExec cmd_settings; EvExec cmd_wallpaper; EvExec cmd_overlays; EvExec cmd_property].

End Color.


(** ** [api.ts]: the real implementation *)

Module RealAPI.
Section WithCapability.
Context {B : Builtins} {C : Constants}.

(** The module variable [ksuExec]: the imported [exec], or [null]. *)
Variable ksuExec : option KsuExec.

Definition stringToHex : jsstring -> jsstring := Codec.stringToHex TextEncoder_defined.

Definition loadConfig : Prog value :=
  match ksuExec with
  | None => Ret (JObj DEFAULT_CONFIG)
  | Some exec =>
      let cmd := PATHS_BINARY ++ lit " show-config" in
      try_or
        (let* r := exec cmd in
         if (errno r =? 0)%Z && nonempty (stdout r) then
           let* loaded := parse (stdout r) in
           Ret (Some (JObj (spread (spread ∅ (JObj DEFAULT_CONFIG)) loaded)))
         else Ret None)
        (JObj DEFAULT_CONFIG)
  end.

Definition saveConfig (config : value) : Prog unit :=
  match ksuExec with
  | None => Throw (Error (lit "No KSU environment"))
  | Some exec =>
      let jsonStr := JSON_stringify config in
      let hexPayload := stringToHex jsonStr in
      let cmd := PATHS_BINARY ++ lit " save-config --payload " ++ hexPayload in
      let* r := exec cmd in
      if negb (errno r =? 0)%Z
      then Throw (Error (lit "Failed to save config: " ++ stderr r))
      else Ret tt
  end.

Definition resetConfig : Prog unit :=
  match ksuExec with
  | None => Throw (Error (lit "No KSU environment"))
  | Some exec =>
      let cmd := PATHS_BINARY ++ lit " gen-config" in
      let* r := exec cmd in
      if negb (errno r =? 0)%Z
      then Throw (Error (lit "Failed to reset config: " ++ stderr r))
      else Ret tt
  end.

Definition scanModules (_path : option jsstring) : Prog value :=
  match ksuExec with
  | None => Ret (JArr [])
  | Some exec =>
      let cmd := PATHS_BINARY ++ lit " modules" in
      try_or
        (let* r := exec cmd in
         if (errno r =? 0)%Z && nonempty (stdout r) then
           let* modules := parse (stdout r) in Ret (Some modules)
         else Ret None)
        (JArr [])
  end.

Definition saveModules (_modules : value) : Prog unit := Ret tt.

Definition readLogs : Prog jsstring :=
  match ksuExec with
  | None => Ret []
  | Some exec =>
      try_or
        (let* r := exec (lit "cat " ++ dq ++ template (DEFAULT_CONFIG !! lit "logfile") ++ dq) in
         if (errno r =? 0)%Z && nonempty (stdout r) then Ret (Some (stdout r))
         else Ret None)
        []
  end.

Definition saveModuleRules (moduleId : jsstring) (rules : value) : Prog unit :=
  match ksuExec with
  | None => Throw (Error (lit "No KSU environment"))
  | Some exec =>
      let jsonStr := JSON_stringify rules in
      let hexPayload := stringToHex jsonStr in
      let cmd :=
        PATHS_BINARY ++ lit " save-module-rules --module " ++ dq ++ moduleId ++ dq
        ++ lit " --payload " ++ hexPayload in
      let* r := exec cmd in
      if negb (errno r =? 0)%Z
      then Throw (Error (lit "Failed to save rules: " ++ stderr r))
      else Ret tt
  end.

(** [PATHS.DAEMON_STATE || "/data/adb/meta-hybrid/run/daemon_state.json"] *)
Definition stateFile : jsstring :=
  match PATHS_DAEMON_STATE with
  | Some p => if nonempty p then p else lit "/data/adb/meta-hybrid/run/daemon_state.json"
  | None => lit "/data/adb/meta-hybrid/run/daemon_state.json"
  end.

Definition cmd_state : jsstring := lit "cat " ++ dq ++ stateFile ++ dq.

Definition getStorageUsage : Prog StorageStatus :=
  match ksuExec with
  | None => Ret {| type := JNull |}
  | Some exec =>
      try_or
        (let* r := exec cmd_state in
         if (errno r =? 0)%Z && nonempty (stdout r) then
           let* state := parse (stdout r) in
           match get_property state (lit "storage_mode") with
           | Some mode => Ret (Some {| type := or_else mode (JStr (lit "unknown")) |})
           | None => Throw (TypeError (lit "Cannot read properties of null"))
           end
         else Ret None)
        {| type := JNull |}
  end.

(** The record every path of [getSystemInfo] starts from. *)
Definition blank_info : SystemInfo :=
  {| kernel := lit "-"; selinux := lit "-"; mountBase := JStr (lit "-");
     activeMounts := JArr []; zygisksuEnforce := None;
     tmpfs_xattr_supported := None; abi := None; hymofs_state := None |}.

Definition cmdSys : jsstring :=
  lit "echo " ++ dq ++ lit "KERNEL:$(uname -r)" ++ dq ++ lit "; echo " ++ dq
  ++ lit "SELINUX:$(getenforce)" ++ dq.

(** The body of the [forEach] over the lines of the first output. *)
Definition tagged_line (info : SystemInfo) (line : jsstring) : SystemInfo :=
  if startsWith (lit "KERNEL:") line
  then set_kernel (trim (substring_from 7 line)) info
  else if startsWith (lit "SELINUX:") line
  then set_selinux (trim (substring_from 8 line)) info
  else info.

Definition read_tagged (errSys : Z) (outSys : jsstring) (info : SystemInfo) : SystemInfo :=
  if (errSys =? 0)%Z && nonempty outSys
  then fold_left tagged_line (split 10 outSys) info
  else info.

(** The inner [try] block: the assignments made before a throw stay. *)
Definition read_state_json (outState : jsstring) (info : SystemInfo) : SystemInfo :=
  match JSON_parse outState with
  | None => info
  | Some state =>
      match get_property state (lit "mount_point") with
      | None => info
      | Some mount_point =>
          let info := set_mountBase (or_else mount_point (JStr (lit "Unknown"))) info in
          match get_property state (lit "active_mounts") with
          | None => info
          | Some active_mounts =>
              let info := set_activeMounts (or_else active_mounts (JArr [])) info in
              match get_property state (lit "zygisksu_enforce") with
              | None => info
              | Some zygisksu_enforce =>
                  let info :=
                    match zygisksu_enforce with
                    | Some v => set_zygisksuEnforce (if truthy v then lit "1" else lit "0") info
                    | None => info
                    end in
                  match get_property state (lit "tmpfs_xattr_supported") with
                  | None => info
                  | Some (Some v) => set_tmpfs_xattr_supported v info
                  | Some None => info
                  end
              end
          end
      end
  end.

Definition read_state (errState : Z) (outState : jsstring) (info : SystemInfo) : SystemInfo :=
  if (errState =? 0)%Z && nonempty outState
  then read_state_json outState info
  else info.

Definition getSystemInfo : Prog SystemInfo :=
  match ksuExec with
  | None => Ret blank_info
  | Some exec =>
      try_catch
        (let* sys := exec cmdSys in
         let info := read_tagged (errno sys) (stdout sys) blank_info in
         let* state := exec cmd_state in
         let info := read_state (errno state) (stdout state) info in
         Ret info)
        (fun _ => Ret blank_info)
  end.

(** [getDeviceStatus]: the three locals start at their literals; a
    rejected call leaves the [try] block and the function returns what the
    locals hold then. *)
Definition device (model android kernel : jsstring) : DeviceInfo :=
  {| model := model; android := android; dev_kernel := kernel;
     dev_selinux := lit "Enforcing" |}.

Definition getDeviceStatus : Prog DeviceInfo :=
  let model := lit "Device" in
  let android := lit "14" in
  let kernel := lit "Unknown" in
  match ksuExec with
  | None => Ret (device model android kernel)
  | Some exec =>
      await_or (exec (lit "getprop ro.product.model")) (Ret (device model android kernel))
        (fun p1 =>
      let model := if (errno p1 =? 0)%Z then trim (stdout p1) else model in
      await_or (exec (lit "getprop ro.build.version.release")) (Ret (device model android kernel))
        (fun p2 =>
      await_or (exec (lit "getprop ro.build.version.sdk")) (Ret (device model android kernel))
        (fun p3 =>
      let android :=
        if (errno p2 =? 0)%Z
        then trim (stdout p2) ++ lit " (API " ++ trim (stdout p3) ++ lit ")"
        else android in
      await_or (exec (lit "uname -r")) (Ret (device model android kernel))
        (fun p4 =>
      let kernel := if (errno p4 =? 0)%Z then trim (stdout p4) else kernel in
      Ret (device model android kernel)))))
  end.

Definition getVersion : Prog jsstring :=
  match ksuExec with
  | None => Ret APP_VERSION
  | Some exec =>
      try_or
        (let binPath := PATHS_BINARY in
         let moduleDir := substring_to (lastIndexOf 47 binPath) binPath in
         let* r := exec (lit "grep " ++ dq ++ lit "^version=" ++ dq ++ lit " " ++ dq
                         ++ moduleDir ++ lit "/module.prop" ++ dq) in
         if (errno r =? 0)%Z && nonempty (stdout r) then
           match Regex.search Patterns.version_line None (stdout r) with
           | Some (Some m) => Ret (Some (trim m))
           | Some None => Throw (TypeError (lit "Cannot read properties of undefined"))
           | None => Ret None
           end
         else Ret None)
        APP_VERSION
  end.

(** [url.replace(/"/g, '\\"')] *)
Definition escape_quotes (url : jsstring) : jsstring :=
  flat_map (fun c => if (c =? 34)%N then backslash ++ dq else [c]) url.

Definition openLink (url : jsstring) : Prog unit :=
  match ksuExec with
  | None => WindowOpen url (lit "_blank") (Ret tt)
  | Some exec =>
      let* r := exec (lit "am start -a android.intent.action.VIEW -d " ++ dq
                      ++ escape_quotes url ++ dq) in
      Ret tt
  end.

Definition fetchSystemColor : Prog (option jsstring) :=
  match ksuExec with
  | None => Ret None
  | Some exec =>
      try_or
        (let* r1 := exec Color.cmd_settings in
         match Color.from_settings (stdout r1) with
         | Some color => Ret (Some (Some color))
         | None =>
         let* r2 := exec Color.cmd_wallpaper in
         match Color.from_wallpaper (stdout r2) with
         | Some color => Ret (Some (Some color))
         | None =>
         let* r3 := exec Color.cmd_overlays in
         match Color.from_overlays (stdout r3) with
         | Some color => Ret (Some (Some color))
         | None =>
         let* r4 := exec Color.cmd_property in
         match Color.from_property (stdout r4) with
         | Some color => Ret (Some (Some color))
         | None => Ret None
         end end end end)
        None
  end.

Definition reboot : Prog unit :=
  match ksuExec with
  | None => Ret tt
  | Some exec => let* r := exec (lit "reboot") in Ret tt
  end.

End WithCapability.
End RealAPI.

(** The four commands of [getDeviceStatus] and the events after each. *)
Module Device.

Definition cmd_model : jsstring := lit "getprop ro.product.model".
Definition cmd_release : jsstring := lit "getprop ro.build.version.release".
Definition cmd_sdk : jsstring := lit "getprop ro.build.version.sdk".
Definition cmd_kernel : jsstring := lit "uname -r".

Definition asked1 : list event := [EvExec cmd_model].
Definition asked2 : list event := [EvExec cmd_model; EvExec cmd_release].
Definition asked3 : list event := [EvExec cmd_model; EvExec cmd_release; EvExec cmd_sdk].
Definition asked4 : list event :=
  [EvExec cmd_model; EvExec cmd_release; EvExec cmd_sdk; EvExec cmd_kernel].

End Device.

(** ** [api.mock.ts]: the fixture-backed implementation *)

(** An object literal. *)
Definition obj `{Builtins} (fields : list (jsstring * value)) : value :=
  JObj (fold_left (fun acc kv => <[kv.1 := kv.2]> acc) fields ∅).

Module MockAPI.
Section WithConstants.
Context {B : Builtins} {C : Constants}.

(** [await delay(ms)] *)
Definition delay (ms : N) : Prog unit := Delay ms (Ret tt).

Definition loadConfig : Prog value :=
  let* u := delay 300 in Ret (JObj (spread ∅ (JObj DEFAULT_CONFIG))).

Definition saveConfig (_config : value) : Prog unit := delay 500.

Definition resetConfig : Prog unit := delay 500.

Definition scanModules (_dir : jsstring) : Prog value :=
  let* u := delay 600 in
  Ret (JArr
    [ obj [ (lit "id", JStr (lit "magisk_module_1"));
            (lit "name", JStr (lit "Example Module"));
            (lit "version", JStr (lit "1.0.0"));
            (lit "author", JStr (lit "Developer"));
            (lit "description", JStr (lit "Mock module"));
            (lit "mode", JStr (lit "magic"));
            (lit "is_mounted", JBool true);
            (lit "rules", obj [ (lit "default_mode", JStr (lit "magic"));
                                (lit "paths", obj [ (lit "system/fonts", JStr (lit "overlay")) ]) ]) ];
      obj [ (lit "id", JStr (lit "overlay_module_2"));
            (lit "name", JStr (lit "System UI Overlay"));
            (lit "version", JStr (lit "2.5"));
            (lit "author", JStr (lit "Google"));
            (lit "description", JStr (lit "Changes system colors."));
            (lit "mode", JStr (lit "auto"));
            (lit "is_mounted", JBool true);
            (lit "rules", obj [ (lit "default_mode", JStr (lit "overlay"));
                                (lit "paths", obj []) ]) ];
      obj [ (lit "id", JStr (lit "hymofs_module_3"));
            (lit "name", JStr (lit "HymoFS Module"));
            (lit "version", JStr (lit "1.2"));
            (lit "author", JStr (lit "Dev"));
            (lit "description", JStr (lit "A hymofs module."));
            (lit "mode", JStr (lit "hymofs"));
            (lit "is_mounted", JBool true);
            (lit "rules", obj [ (lit "default_mode", JStr (lit "hymofs"));
                                (lit "paths", obj []) ]) ] ]).

Definition saveModuleRules (_moduleId : jsstring) (_rules : value) : Prog unit :=
  delay 400.

Definition getDeviceStatus : Prog DeviceInfo :=
  let* u := delay 300 in
  Ret {| model := lit "Pixel 8 Pro (Mock)"; android := lit "14 (API 34)";
         dev_kernel := lit "5.15.110-android14-11"; dev_selinux := lit "Enforcing" |}.

Definition getVersion : Prog jsstring :=
  let* u := delay 100 in Ret APP_VERSION.

Definition getStorageUsage : Prog StorageStatus :=
  let* u := delay 300 in Ret {| type := JStr (lit "erofs") |}.

Definition getSystemInfo : Prog SystemInfo :=
  let* u := delay 300 in
  Ret {| kernel := lit "Linux localhost 5.15.0 #1 SMP PREEMPT";
         selinux := lit "Enforcing";
         mountBase := JStr (lit "/data/adb/meta-hybrid/mnt");
         activeMounts := JArr [JStr (lit "system"); JStr (lit "product")];
         zygisksuEnforce := Some (lit "1");
         tmpfs_xattr_supported := Some (JBool false);
         abi := Some (lit "aarch64");
         hymofs_state :=
           Some {| loaded := true; version := 12;
                   active_features := [lit "debug"; lit "stealth"];
                   error_msg := None |} |}.

Definition rmmodHymofs : Prog unit := delay 500.

End WithConstants.
End MockAPI.

(** ** The interface [AppAPI] and the binding [API] *)

(** The types that occur in the member signatures; every member returns a
    promise of its result type. *)
Inductive ty : Type :=
| TVoid | TString | TStringOrNull | TAppConfig | TModules | TModuleRules
| TStorageStatus | TSystemInfo | TDeviceInfo.

Definition ty_eqb (a b : ty) : bool :=
  match a, b with
  | TVoid, TVoid | TString, TString | TStringOrNull, TStringOrNull
  | TAppConfig, TAppConfig | TModules, TModules | TModuleRules, TModuleRules
  | TStorageStatus, TStorageStatus | TSystemInfo, TSystemInfo
  | TDeviceInfo, TDeviceInfo => true
  | _, _ => false
  end.

Record param : Type := { pty : ty; optional : bool }.

Record signature : Type := { params : list param; returns : ty }.

Definition sig (ps : list param) (r : ty) : signature := {| params := ps; returns := r |}.
Definition req (t : ty) : param := {| pty := t; optional := false |}.
Definition opt (t : ty) : param := {| pty := t; optional := true |}.

(** [interface AppAPI] *)
Definition AppAPI : list (string * signature) :=
  [ ("loadConfig", sig [] TAppConfig);
    ("saveConfig", sig [req TAppConfig] TVoid);
    ("resetConfig", sig [] TVoid);
    ("scanModules", sig [opt TString] TModules);
    ("saveModules", sig [req TModules] TVoid);
    ("saveModuleRules", sig [req TString; req TModuleRules] TVoid);
    ("getStorageUsage", sig [] TStorageStatus);
    ("getSystemInfo", sig [] TSystemInfo);
    ("getDeviceStatus", sig [] TDeviceInfo);
    ("getVersion", sig [] TString);
    ("openLink", sig [req TString] TVoid);
    ("fetchSystemColor", sig [] TStringOrNull);
    ("reboot", sig [] TVoid);
    ("readLogs", sig [] TString) ]%string.

(** The members of the object literal [RealAPI], in source order. *)
Definition RealAPI_members : list (string * signature) :=
  [ ("loadConfig", sig [] TAppConfig);
    ("saveConfig", sig [req TAppConfig] TVoid);
    ("resetConfig", sig [] TVoid);
    ("scanModules", sig [opt TString] TModules);
    ("saveModules", sig [req TModules] TVoid);
    ("readLogs", sig [] TString);
    ("saveModuleRules", sig [req TString; req TModuleRules] TVoid);
    ("getStorageUsage", sig [] TStorageStatus);
    ("getSystemInfo", sig [] TSystemInfo);
    ("getDeviceStatus", sig [] TDeviceInfo);
    ("getVersion", sig [] TString);
    ("openLink", sig [req TString] TVoid);
    ("fetchSystemColor", sig [] TStringOrNull);
    ("reboot", sig [] TVoid) ]%string.

(** The members of the object literal [MockAPI], in source order. *)
Definition MockAPI_members : list (string * signature) :=
  [ ("loadConfig", sig [] TAppConfig);
    ("saveConfig", sig [req TAppConfig] TVoid);
    ("resetConfig", sig [] TVoid);
    ("scanModules", sig [req TString] TModules);
    ("saveModuleRules", sig [req TString; req TModuleRules] TVoid);
    ("getDeviceStatus", sig [] TDeviceInfo);
    ("getVersion", sig [] TString);
    ("getStorageUsage", sig [] TStorageStatus);
    ("getSystemInfo", sig [] TSystemInfo);
    ("rmmodHymofs", sig [] TVoid) ]%string.

(** [obj[name]]: the first member of that name. *)
Fixpoint member (name : string) (o : list (string * signature)) : option signature :=
  match o with
  | [] => None
  | (n, s) :: o' => if String.eqb n name then Some s else member name o'
  end.

(** Two members take a call of the same shape: the same parameter types in
    the same order and the same result type. *)
Definition same_shape (a b : signature) : bool :=
  (length (params a) =? length (params b))%nat
  && forallb (fun pq => ty_eqb (pty pq.1) (pty pq.2)) (combine (params a) (params b))
  && ty_eqb (returns a) (returns b).

(** Whether an object has every member of an interface, with its shape. *)
Definition implements (o iface : list (string * signature)) : bool :=
  forallb
    (fun m => match member m.1 o with
              | Some s => same_shape s m.2
              | None => false
              end)
    iface.

(** The members of an interface that an object lacks. *)
Definition missing_members (o iface : list (string * signature)) : list string :=
  map fst (List.filter (fun m => match member m.1 o with Some _ => false | None => true end) iface).

(** [shouldUseMock = import.meta.env.DEV || !ksuExec] *)
Definition shouldUseMock (DEV : bool) (ksuExec : option KsuExec) : bool :=
  DEV || match ksuExec with Some _ => false | None => true end.

(** [API = shouldUseMock ? (MockAPI as unknown as AppAPI) : RealAPI], as the
    object the name is bound to. *)
Definition API_members (DEV : bool) (ksuExec : option KsuExec) : list (string * signature) :=
  if shouldUseMock DEV ksuExec then MockAPI_members else RealAPI_members.

(** ** [HymoFSTab.tsx]: the two switches

    [toggleDebug] and [toggleStealth] replace [store.config] by a copy with
    one flag negated; [None] is the [TypeError] of reading the flag of
    [null]. *)
Module HymoFSTab.
Section WithBuiltins.
Context {B : Builtins}.

Definition toggle (flag : jsstring) (config : value) : option value :=
  match get_property config flag with
  | None => None
  | Some current =>
      let on := match current with Some v => truthy v | None => false end in
      Some (JObj (<[flag := JBool (negb on)]> (spread ∅ config)))
  end.

Definition toggleDebug : value -> option value := toggle (lit "hymofs_debug").
Definition toggleStealth : value -> option value := toggle (lit "hymofs_stealth").

End WithBuiltins.
End HymoFSTab.

(** ** A reference environment

    A concrete engine and concrete constants, to run the API on: numbers are
    the integers, [JSON.parse] reads the JSON grammar with integer numbers,
    [JSON.stringify] writes it back. *)

Module Reference.

Definition is_json_space (c : N) : bool :=
  ((c =? 0x20) || (c =? 0x09) || (c =? 0x0A) || (c =? 0x0D))%N.

Fixpoint skip_space (s : jsstring) : jsstring :=
  match s with
  | c :: r => if is_json_space c then skip_space r else s
  | [] => []
  end.

Definition is_digit (c : N) : bool := ((48 <=? c) && (c <=? 57))%N.

Fixpoint read_digits (acc : Z) (s : jsstring) : Z * jsstring :=
  match s with
  | c :: r => if is_digit c then read_digits (10 * acc + Z.of_N (c - 48)) r else (acc, s)
  | [] => (acc, [])
  end.

Definition hex_value (c : N) : option N :=
  (if (48 <=? c) && (c <=? 57) then Some (c - 48)
   else if (97 <=? c) && (c <=? 102) then Some (c - 87)
   else if (65 <=? c) && (c <=? 70) then Some (c - 55)
   else None)%N.

(** The characters of a string literal after its opening quote. *)
Fixpoint read_string (s : jsstring) : option (jsstring * jsstring) :=
  match s with
  | [] => None
  | 34%N :: r => Some ([], r)
  | 92%N :: e :: r =>
      let plain c := match read_string r with
                     | Some (t, r') => Some (c :: t, r')
                     | None => None
                     end in
      if (e =? 34)%N then plain 34%N
      else if (e =? 92)%N then plain 92%N
      else if (e =? 47)%N then plain 47%N
      else if (e =? 98)%N then plain 8%N
      else if (e =? 102)%N then plain 12%N
      else if (e =? 110)%N then plain 10%N
      else if (e =? 114)%N then plain 13%N
      else if (e =? 116)%N then plain 9%N
      else if (e =? 117)%N then
        match r with
        | a :: b :: c :: d :: r' =>
            match hex_value a, hex_value b, hex_value c, hex_value d, read_string r' with
            | Some a, Some b, Some c, Some d, Some (t, r'') =>
                Some ((((a * 16 + b) * 16 + c) * 16 + d)%N :: t, r'')
            | _, _, _, _, _ => None
            end
        | _ => None
        end
      else None
  | c :: r =>
      if (c <? 0x20)%N then None
      else match read_string r with
           | Some (t, r') => Some (c :: t, r')
           | None => None
           end
  end.

Fixpoint read_value (fuel : nat) (s : jsstring) : option (json Z * jsstring) :=
  match fuel with
  | O => None
  | S fuel' =>
      match skip_space s with
      | 110%N :: 117%N :: 108%N :: 108%N :: r => Some (JNull, r)
      | 116%N :: 114%N :: 117%N :: 101%N :: r => Some (JBool true, r)
      | 102%N :: 97%N :: 108%N :: 115%N :: 101%N :: r => Some (JBool false, r)
      | 34%N :: r =>
          match read_string r with
          | Some (t, r') => Some (JStr t, r')
          | None => None
          end
      | 91%N :: r =>
          match skip_space r with
          | 93%N :: r' => Some (JArr [], r')
          | _ => match read_elements fuel' r with
                 | Some (l, r') => Some (JArr l, r')
                 | None => None
                 end
          end
      | 123%N :: r =>
          match skip_space r with
          | 125%N :: r' => Some (JObj ∅, r')
          | _ => match read_members fuel' r ∅ with
                 | Some (m, r') => Some (JObj m, r')
                 | None => None
                 end
          end
      | 45%N :: c :: r =>
          if is_digit c then let (n, r') := read_digits 0 (c :: r) in Some (JNum (- n)%Z, r')
          else None
      | c :: r =>
          if is_digit c then let (n, r') := read_digits 0 (c :: r) in Some (JNum n, r')
          else None
      | [] => None
      end
  end
with read_elements (fuel : nat) (s : jsstring) : option (list (json Z) * jsstring) :=
  match fuel with
  | O => None
  | S fuel' =>
      match read_value fuel' s with
      | Some (v, r) =>
          match skip_space r with
          | 44%N :: r' =>
              match read_elements fuel' r' with
              | Some (l, r'') => Some (v :: l, r'')
              | None => None
              end
          | 93%N :: r' => Some ([v], r')
          | _ => None
          end
      | None => None
      end
  end
with read_members (fuel : nat) (s : jsstring) (acc : gmap jsstring (json Z))
    : option (gmap jsstring (json Z) * jsstring) :=
  match fuel with
  | O => None
  | S fuel' =>
      match skip_space s with
      | 34%N :: r =>
          match read_string r with
          | Some (key, r1) =>
              match skip_space r1 with
              | 58%N :: r2 =>
                  match read_value fuel' r2 with
                  | Some (v, r3) =>
                      match skip_space r3 with
                      | 44%N :: r4 => read_members fuel' r4 (<[key := v]> acc)
                      | 125%N :: r4 => Some (<[key := v]> acc, r4)
                      | _ => None
                      end
                  | None => None
                  end
              | _ => None
              end
          | None => None
          end
      | _ => None
      end
  end.

Definition parse_json (s : jsstring) : option (json Z) :=
  match read_value (2 * length s + 2) s with
  | Some (v, r) => match skip_space r with [] => Some v | _ :: _ => None end
  | None => None
  end.

Definition decimal (z : Z) : jsstring := lit (NilZero.string_of_int (Z.to_int z)).

(** [\u00XX] *)
Definition unicode_escape (c : N) : jsstring :=
  lit "\u00" ++ [Codec.hex_digit (c / 16); Codec.hex_digit (c mod 16)]%N.

Definition quote_unit (c : N) : jsstring :=
  (if c =? 34 then lit "\" ++ [34]
   else if c =? 92 then lit "\\"
   else if c =? 8 then lit "\b"
   else if c =? 12 then lit "\f"
   else if c =? 10 then lit "\n"
   else if c =? 13 then lit "\r"
   else if c =? 9 then lit "\t"
   else if c <? 0x20 then unicode_escape c
   else [c])%N.

Definition quote (s : jsstring) : jsstring := dq ++ flat_map quote_unit s ++ dq.

Definition join (parts : list jsstring) : jsstring :=
  match parts with
  | [] => []
  | p :: ps => fold_left (fun acc q => acc ++ lit "," ++ q) ps p
  end.

Fixpoint stringify_json (v : json Z) : jsstring :=
  match v with
  | JNull => lit "null"
  | JBool b => if b then lit "true" else lit "false"
  | JNum n => decimal n
  | JStr s => quote s
  | JArr l => lit "[" ++ join (map stringify_json l) ++ lit "]"
  | JObj m =>
      lit "{"
      ++ join (map_fold (fun k x acc => acc ++ [quote k ++ lit ":" ++ stringify_json x]) [] m)
      ++ lit "}"
  end.

#[export] Instance builtins : Builtins := {
  number := Z;
  number_truthy := fun n => negb (n =? 0)%Z;
  number_toString := decimal;
  JSON_parse := parse_json;
  JSON_stringify := stringify_json;
  TextEncoder_defined := true
}.

(** The same engine without [TextEncoder]. *)
Definition builtins_without_TextEncoder : Builtins := {|
  number := Z;
  number_truthy := fun n => negb (n =? 0)%Z;
  number_toString := decimal;
  JSON_parse := parse_json;
  JSON_stringify := stringify_json;
  TextEncoder_defined := false
|}.

#[export] Instance constants : Constants := {
  DEFAULT_CONFIG :=
    fold_left (fun acc kv => <[kv.1 := kv.2]> acc)
      [ (lit "moduledir", JStr (lit "/data/adb/modules"));
        (lit "mountsource", JStr (lit "KSU"));
        (lit "partitions", JArr []);
        (lit "overlay_mode", JStr (lit "tmpfs"));
        (lit "disable_umount", JBool false);
        (lit "allow_umount_coexistence", JBool false);
        (lit "logfile", JStr (lit "/data/adb/meta-hybrid/daemon.log")) ] ∅;
  PATHS_BINARY := lit "/data/adb/modules/meta-hybrid/meta-hybrid";
  PATHS_DAEMON_STATE := None;
  APP_VERSION := lit "v0.0.0"
}.

(** A host that answers by the command alone; any other command fails to
    start. *)
Definition answer (table : list (jsstring * Outcome)) : Host :=
  fun _ cmd =>
    match first_some (fun e => if decide (e.1 = cmd) then Some e.2 else None) table with
    | Some o => o
    | None => Rejected (Error (lit "not found"))
    end.

Definition ok (out : jsstring) : Outcome :=
  Resolved {| errno := 0; stdout := out; stderr := [] |}.

Definition failed (code : Z) (err : jsstring) : Outcome :=
  Resolved {| errno := code; stdout := []; stderr := err |}.

(** Text with ['] standing for the double quote. *)
Definition quoted (s : string) : jsstring :=
  flat_map (fun c => if (c =? 39)%N then dq else [c]) (lit s).
Arguments quoted s%_string.

(** A host on which every command exits with code 1 and stderr
    [disk full]. *)
Definition disk_full : KsuExecResult :=
  {| errno := 1; stdout := []; stderr := lit "disk full" |}.
Definition full_disk : Host := fun _ _ => Resolved disk_full.

Definition some_rules : json Z :=
  obj [ (lit "default_mode", JStr (lit "overlay")); (lit "paths", obj []) ].

(** A binary that prints a diagnostic instead of JSON. *)
Definition not_json : Host := fun _ _ => ok (lit "meta-hybrid: no config").

(** A remote configuration that overrides one key and adds one. *)
Definition remote_text : jsstring := quoted "{'moduledir':'/x','extra':1}".
Definition remote_record : gmap jsstring (json Z) :=
  <[lit "extra" := JNum 1%Z]> (<[lit "moduledir" := JStr (lit "/x")]> ∅).
Definition remote : Host := fun _ _ => ok remote_text.

(** Hosts for the colour resolver: the settings key is unset and the overlay
    list has the green theme enabled; the wallpaper dump is empty on the
    first host and has a main colour on the second. *)
Definition overlay_list : jsstring :=
  lit "[ ] com.android.theme.color.black" ++ [10%N]
  ++ lit "[x] com.android.theme.color.green" ++ [10%N].

Definition themed : Host :=
  answer [ (Color.cmd_settings, ok []); (Color.cmd_wallpaper, ok []);
           (Color.cmd_overlays, ok overlay_list) ].


(** Every source but the theme property is empty; the property holds an
    ARGB value. *)
Definition property_argb : Host :=
  answer [ (Color.cmd_settings, ok []); (Color.cmd_wallpaper, ok []);
           (Color.cmd_overlays, ok []);
           (Color.cmd_property, ok (lit "FF112233" ++ [10%N])) ].

(** A device whose SDK-level query fails while the three others succeed. *)
Definition sdk_fails : Host :=
  answer [ (lit "getprop ro.product.model", ok (lit "Pixel 8" ++ [10%N]));
           (lit "getprop ro.build.version.release", ok (lit "14" ++ [10%N]));
           (lit "getprop ro.build.version.sdk", failed 1 (lit "getprop: not found"));
           (lit "uname -r", ok (lit "5.15.110" ++ [10%N])) ].

(** The tagged-line command fails; the state file is there. *)
Definition state_text : jsstring :=
  quoted "{'mount_point':'/mnt','active_mounts':['system'],'zygisksu_enforce':false}".
Definition state_record : gmap jsstring (json Z) :=
  <[lit "zygisksu_enforce" := JBool false]>
    (<[lit "active_mounts" := JArr [JStr (lit "system")]]>
       (<[lit "mount_point" := JStr (lit "/mnt")]> ∅)).
Definition tagged_fails : Host :=
  answer [ (RealAPI.cmdSys, failed 1 (lit "uname: not found"));
           (RealAPI.cmd_state, ok state_text) ].

(** A host on which every command succeeds silently, and one on which no
    command can be started. *)
Definition accepting : Host := fun _ _ => ok [].
Definition unreachable : Host := answer [].

(** Hosts that print the same text for every command. *)
Definition prints (text : jsstring) : Host := fun _ _ => ok text.

(** The first command prints two kernel lines; the state file is there on
    the first host and cannot be read on the second. *)
Definition tagged_text : jsstring :=
  lit "KERNEL:5.10" ++ [10%N] ++ lit "SELINUX:Enforcing" ++ [10%N]
  ++ lit "KERNEL: 6.1 " ++ [10%N].
Definition two_kernels : Host :=
  answer [ (RealAPI.cmdSys, ok tagged_text); (RealAPI.cmd_state, ok state_text) ].
Definition state_unreachable : Host := answer [ (RealAPI.cmdSys, ok tagged_text) ].

(** A device that answers the model query only. *)
Definition model_only : Host :=
  answer [ (Device.cmd_model, ok (lit "Pixel 8" ++ [10%N])) ].

(** The tagged-line call cannot be started; the state file is there. *)
Definition tagged_rejected : Host := answer [ (RealAPI.cmd_state, ok state_text) ].

(** A module whose [module.prop] starts with its version line. *)
Definition version_text : jsstring :=
  lit "version=v1.2.3 " ++ [10%N] ++ lit "versionCode=5" ++ [10%N].

End Reference.

(** ** Vocabulary of the statements *)

(** The code unit before the position reached after reading [s]. *)
Definition after_reading (prev : option N) (s : jsstring) : option N :=
  fold_left (fun _ c => Some c) s prev.

(** A pattern without a group. *)
Fixpoint groupless (r : Regex.regex) : bool :=
  match r with
  | Regex.Group _ => false
  | Regex.Seq r1 r2 | Regex.Alt r1 r2 => groupless r1 && groupless r2
  | Regex.Opt r1 => groupless r1
  | _ => true
  end.

(** A colour string: a hash and between [lo] and [hi] hex digits. *)
Definition hex_color (lo hi : nat) (color : jsstring) : Prop :=
  exists digits,
    color = lit "#" ++ digits /\ lo <= length digits <= hi /\
    forallb Regex.is_hex digits = true.

(** A hash and six hex digits, as a test. *)
Definition is_rgb (color : jsstring) : bool :=
  match color with
  | 35%N :: digits => (length digits =? 6) && forallb Regex.is_hex digits
  | _ => false
  end.

(** The command of [getVersion]. *)
Definition cmd_version `{Constants} : jsstring :=
  lit "grep " ++ dq ++ lit "^version=" ++ dq ++ lit " " ++ dq
  ++ substring_to (lastIndexOf 47 PATHS_BINARY) PATHS_BINARY ++ lit "/module.prop" ++ dq.

(** * Properties *)

(** ** The payload codec *)

Section CodecFacts.
Import Codec.

Lemma fold_left_app_flat_map {A B} (f : A -> list B) (l : list A) (acc : list B) :
  fold_left (fun h b => h ++ f b) l acc = acc ++ flat_map f l.
Proof.
  revert acc. induction l as [|a l IH]; intros acc; cbn [fold_left flat_map].
  - now rewrite app_nil_r.
  - rewrite IH. now rewrite <- app_assoc.
Qed.

Lemma toString16_small b : (b < 16)%N -> toString16 b = [hex_digit b].
Proof.
  intros Hb. unfold toString16. cbn [toString16_aux].
  destruct (N.ltb_spec b 16); [reflexivity | lia].
Qed.

Lemma toString16_byte b :
  (16 <= b < 256)%N -> toString16 b = [hex_digit (b / 16); hex_digit (b mod 16)].
Proof.
  intros Hb. unfold toString16.
  destruct b as [|p]; [lia|].
  assert (exists n, N.size_nat (N.pos p) = S n) as [n ->].
  { cbn. destruct p; cbn; eauto. }
  cbn [toString16_aux].
  destruct (N.ltb_spec (N.pos p) 16); [lia|].
  destruct (N.ltb_spec (N.pos p / 16) 16); [reflexivity | lia].
Qed.

Lemma hex_of_byte_pair b : (b < 256)%N -> hex_of_byte b = hex_pair b.
Proof.
  intros Hb. unfold hex_of_byte. cbv zeta. destruct (N.ltb_spec b 16).
  - rewrite toString16_small by trivial. unfold hex_pair.
    replace (b / 16)%N with 0%N by lia. replace (b mod 16)%N with b by lia.
    reflexivity.
  - rewrite toString16_byte by lia. reflexivity.
Qed.

Lemma hex_digit_lower d : (d < 16)%N -> is_lower_hex (hex_digit d) = true.
Proof.
  intros Hd. unfold is_lower_hex, hex_digit.
  destruct (N.ltb_spec d 10);
    repeat match goal with |- context [(?a <=? ?b)%N] => destruct (N.leb_spec a b) end;
    cbn; try reflexivity; lia.
Qed.

Lemma hex_digit_inj a b : (a < 16)%N -> (b < 16)%N -> hex_digit a = hex_digit b -> a = b.
Proof.
  unfold hex_digit. intros Ha Hb.
  destruct (N.ltb_spec a 10), (N.ltb_spec b 10); lia.
Qed.

Lemma hex_pair_inj a b : (a < 256)%N -> (b < 256)%N -> hex_pair a = hex_pair b -> a = b.
Proof.
  intros Ha Hb E. unfold hex_pair in E. injection E as E1 E2.
  apply hex_digit_inj in E1; [|lia|lia].
  apply hex_digit_inj in E2; [|lia|lia].
  lia.
Qed.

Lemma stringToHex_pairs (te : bool) (str : jsstring) :
  all_bytes (payload_bytes te str) ->
  stringToHex te str = flat_map hex_pair (payload_bytes te str).
Proof.
  unfold stringToHex. cbv zeta.
  generalize (payload_bytes te str).
  intros bytes Hb. rewrite fold_left_app_flat_map. rewrite app_nil_l.
  induction Hb as [|b l Hb Hl IH]; cbn [flat_map]; [reflexivity|].
  rewrite IH. f_equal. apply (hex_of_byte_pair b Hb).
Qed.

Lemma flat_map_hex_pair_inj l1 : forall l2,
  all_bytes l1 -> all_bytes l2 -> flat_map hex_pair l1 = flat_map hex_pair l2 -> l1 = l2.
Proof.
  induction l1 as [|a l1 IH]; intros [|b l2] H1 H2 E; cbn in E; try discriminate; [reflexivity|].
  inversion H1; inversion H2; subst.
  injection E as E1 E2 E3.
  assert (a = b) by (apply hex_pair_inj; trivial; unfold hex_pair; congruence).
  subst. f_equal. now apply IH.
Qed.


Lemma lower_hex_flat_map_hex_pair l :
  all_bytes l -> forallb is_lower_hex (flat_map hex_pair l) = true.
Proof.
  induction 1 as [|b l Hb Hl IH]; cbn [flat_map hex_pair app forallb]; [reflexivity|].
  rewrite !hex_digit_lower by lia. exact IH.
Qed.

Lemma land_0xff_byte c : (N.land c 0xff < 256)%N.
Proof.
  change 0xff%N with (N.ones 8). rewrite N.land_ones.
  apply N.mod_lt. discriminate.
Qed.

Lemma fallback_all_bytes str : all_bytes (payload_bytes false str).
Proof.
  unfold payload_bytes.
  induction str as [|c r IH]; cbn [map]; constructor; [apply land_0xff_byte | exact IH].
Qed.

Lemma utf8_encode_bytes cp : (cp < 0x110000)%N -> all_bytes (utf8_encode cp).
Proof.
  intros Hcp. unfold utf8_encode, all_bytes.
  repeat match goal with |- context [(?a <? ?b)%N] => destruct (N.ltb_spec a b) end;
    repeat constructor; lia.
Qed.

Lemma to_scalar_values_bound s :
  is_jsstring s = true -> Forall (fun cp => cp < 0x110000)%N (to_scalar_values s).
Proof.
  induction s as [s IH] using (induction_ltof1 _ (@length N)). unfold ltof in IH.
  destruct s as [|c r]; cbn [to_scalar_values is_jsstring forallb]; [constructor|].
  intros [Hc Hr]%andb_prop. apply N.ltb_lt in Hc.
  unfold is_high_surrogate, is_low_surrogate.
  destruct (N.leb_spec 0xD800 c), (N.leb_spec c 0xDBFF); cbn [andb].
  2-4: destruct (N.leb_spec 0xDC00 c), (N.leb_spec c 0xDFFF); cbn [andb];
       (constructor; [lia | apply IH; [cbn; lia | exact Hr]]).
  destruct r as [|d r']; [repeat constructor; lia|].
  pose proof Hr as Hdr. cbn [forallb] in Hr. apply andb_prop in Hr as [Hd Hr'].
  apply N.ltb_lt in Hd.
  destruct (N.leb_spec 0xDC00 d), (N.leb_spec d 0xDFFF); cbn [andb];
    (constructor; [lia | apply IH; [cbn; lia | assumption]]).
Qed.

Lemma TextEncoder_all_bytes s : is_jsstring s = true -> all_bytes (payload_bytes true s).
Proof.
  intros Hs. unfold payload_bytes, TextEncoder_encode.
  induction (to_scalar_values_bound s Hs) as [|cp l Hcp Hl IH]; cbn [flat_map]; [constructor|].
  apply Forall_app. split; [now apply utf8_encode_bytes | exact IH].
Qed.

End CodecFacts.

Section Utf8Injective.
Import Codec.

Lemma div_mod_64 c :
  exists q r, (c = 64 * q + r /\ r < 64 /\ c / 64 = q /\ c mod 64 = r)%N.
Proof.
  exists (c / 64)%N, (c mod 64)%N. repeat split.
  - apply N.div_mod. discriminate.
  - apply N.mod_lt. discriminate.
Qed.

#[local] Ltac name_div_mod_64 c q r :=
  let Hc := fresh "D" in let Hr := fresh "R" in
  let Eq := fresh "Eq" in let Er := fresh "Er" in
  destruct (div_mod_64 c) as (q & r & Hc & Hr & Eq & Er);
  rewrite ?Eq, ?Er in *; clear Eq Er.

(** UTF-8 is a prefix code: the first sequence of a byte string determines
    its scalar value and the rest. *)
Lemma utf8_encode_app_inj a b x y :
  (a < 0x110000)%N -> (b < 0x110000)%N ->
  utf8_encode a ++ x = utf8_encode b ++ y -> a = b /\ x = y.
Proof.
  intros Ha Hb. unfold utf8_encode.
  name_div_mod_64 a a1 ar1. name_div_mod_64 a1 a2 ar2. name_div_mod_64 a2 a3 ar3.
  name_div_mod_64 b b1 br1. name_div_mod_64 b1 b2 br2. name_div_mod_64 b2 b3 br3.
  destruct (N.ltb_spec a 0x80); [|destruct (N.ltb_spec a 0x800); [|destruct (N.ltb_spec a 0x10000)]];
  (destruct (N.ltb_spec b 0x80); [|destruct (N.ltb_spec b 0x800); [|destruct (N.ltb_spec b 0x10000)]]);
  cbn [app]; intros E; injection E; clear E; intros;
  (split; [lia | try assumption]); exfalso; lia.
Qed.

Lemma flat_map_utf8_encode_inj l1 : forall l2,
  Forall (fun cp => cp < 0x110000)%N l1 -> Forall (fun cp => cp < 0x110000)%N l2 ->
  flat_map utf8_encode l1 = flat_map utf8_encode l2 -> l1 = l2.
Proof.
  induction l1 as [|a l1 IH]; intros [|b l2] H1 H2 E; cbn [flat_map] in E.
  - reflexivity.
  - exfalso. unfold utf8_encode in E.
    repeat match type of E with context [(?u <? ?v)%N] => destruct (u <? v)%N end;
      discriminate.
  - exfalso. unfold utf8_encode in E.
    repeat match type of E with context [(?u <? ?v)%N] => destruct (u <? v)%N end;
      discriminate.
  - inversion H1; inversion H2; subst.
    apply utf8_encode_app_inj in E as [-> E]; [|assumption|assumption].
    f_equal. now apply IH.
Qed.

(** A well-formed string is determined by its scalar values. *)
Lemma to_scalar_values_inj s1 : forall s2,
  is_jsstring s1 = true -> is_jsstring s2 = true ->
  isWellFormed s1 = true -> isWellFormed s2 = true ->
  to_scalar_values s1 = to_scalar_values s2 -> s1 = s2.
Proof.
  induction s1 as [s1 IH] using (induction_ltof1 _ (@length N)). unfold ltof in IH.
  intros s2 J1 J2 W1 W2 E.
  destruct s1 as [|c1 r1], s2 as [|c2 r2].
  - reflexivity.
  - exfalso. cbn [to_scalar_values] in E.
    destruct (is_high_surrogate c2); [destruct r2 as [|d2 r2']; [|destruct (is_low_surrogate d2)]
                                     | destruct (is_low_surrogate c2)]; discriminate.
  - exfalso. cbn [to_scalar_values] in E.
    destruct (is_high_surrogate c1); [destruct r1 as [|d1 r1']; [|destruct (is_low_surrogate d1)]
                                     | destruct (is_low_surrogate c1)]; discriminate.
  - cbn [is_jsstring forallb] in J1, J2.
    apply andb_prop in J1 as [Jc1 Jr1]. apply andb_prop in J2 as [Jc2 Jr2].
    apply N.ltb_lt in Jc1, Jc2.
    cbn [to_scalar_values isWellFormed] in E, W1, W2.
    destruct (is_high_surrogate c1) eqn:H1, (is_high_surrogate c2) eqn:H2.
    + destruct r1 as [|d1 r1']; [discriminate|]. destruct r2 as [|d2 r2']; [discriminate|].
      apply andb_prop in W1 as [L1 W1]. apply andb_prop in W2 as [L2 W2].
      rewrite L1, L2 in E.
      cbn [forallb] in Jr1, Jr2.
      apply andb_prop in Jr1 as [Jd1 Jr1]. apply andb_prop in Jr2 as [Jd2 Jr2].
      injection E as E1 E2.
      apply IH in E2; [|cbn; lia|assumption..]. subst r2'.
      unfold is_high_surrogate in H1, H2. unfold is_low_surrogate in L1, L2.
      apply andb_prop in H1 as [?%N.leb_le ?%N.leb_le].
      apply andb_prop in H2 as [?%N.leb_le ?%N.leb_le].
      apply andb_prop in L1 as [?%N.leb_le ?%N.leb_le].
      apply andb_prop in L2 as [?%N.leb_le ?%N.leb_le].
      assert (c1 = c2 /\ d1 = d2) as [-> ->] by lia. reflexivity.
    + exfalso.
      destruct r1 as [|d1 r1']; [discriminate|].
      apply andb_prop in W1 as [L1 W1]. apply andb_prop in W2 as [L2 W2].
      rewrite L1 in E. apply negb_true_iff in L2. rewrite L2 in E.
      injection E as E1 E2.
      unfold is_high_surrogate in H1. unfold is_low_surrogate in L1.
      apply andb_prop in H1 as [?%N.leb_le ?%N.leb_le].
      apply andb_prop in L1 as [?%N.leb_le ?%N.leb_le].
      lia.
    + exfalso.
      destruct r2 as [|d2 r2']; [discriminate|].
      apply andb_prop in W1 as [L1 W1]. apply andb_prop in W2 as [L2 W2].
      rewrite L2 in E. apply negb_true_iff in L1. rewrite L1 in E.
      injection E as E1 E2.
      unfold is_high_surrogate in H2. unfold is_low_surrogate in L2.
      apply andb_prop in H2 as [?%N.leb_le ?%N.leb_le].
      apply andb_prop in L2 as [?%N.leb_le ?%N.leb_le].
      lia.
    + apply andb_prop in W1 as [L1 W1]. apply andb_prop in W2 as [L2 W2].
      apply negb_true_iff in L1, L2. rewrite L1, L2 in E.
      injection E as E1 E2. subst c2. f_equal.
      apply IH; [cbn; lia|assumption..].
Qed.

Lemma TextEncoder_encode_inj s1 s2 :
  is_jsstring s1 = true -> is_jsstring s2 = true ->
  isWellFormed s1 = true -> isWellFormed s2 = true ->
  TextEncoder_encode s1 = TextEncoder_encode s2 -> s1 = s2.
Proof.
  intros J1 J2 W1 W2 E. apply to_scalar_values_inj; try assumption.
  apply flat_map_utf8_encode_inj; [now apply to_scalar_values_bound..|exact E].
Qed.

End Utf8Injective.




(** ** Running asynchronous code *)

Section RunFacts.

Lemma startsWith_app (x post : jsstring) : startsWith x (x ++ post) = true.
Proof.
  induction x as [|c x IH]; cbn [startsWith app]; [reflexivity|].
  now rewrite N.eqb_refl, IH.
Qed.

Lemma includes_app (pre x post : jsstring) : includes x (pre ++ x ++ post) = true.
Proof.
  induction pre as [|c pre IH].
  - cbn [app]. destruct (x ++ post) eqn:E.
    + cbn [includes]. destruct x; [reflexivity | discriminate].
    + rewrite <- E. replace (includes x (x ++ post)) with
        (startsWith x (x ++ post) || match x ++ post with [] => false | _ :: s' => includes x s' end)
        by (destruct (x ++ post); reflexivity).
      now rewrite startsWith_app.
  - cbn [app includes]. rewrite IH. apply orb_true_r.
Qed.

Lemma run_from_bind {A B} (host : Host) (p : Prog A) (f : A -> Prog B) : forall log,
  run_from host log (bind p f) =
  match run_from host log p with
  | (Returned a, log') => run_from host log' (f a)
  | (Thrown e, log') => (Thrown e, log')
  end.
Proof.
  induction p as [a|e|cmd k IH|ms k IH|url target k IH]; intros log; cbn [bind run_from];
    try reflexivity; apply IH.
Qed.

Lemma run_from_try_catch {A} (host : Host) (p : Prog A) (h : exn -> Prog A) : forall log,
  run_from host log (try_catch p h) =
  match run_from host log p with
  | (Returned a, log') => (Returned a, log')
  | (Thrown e, log') => run_from host log' (h e)
  end.
Proof.
  induction p as [a|e|cmd k IH|ms k IH|url target k IH]; intros log; cbn [try_catch run_from];
    try reflexivity; apply IH.
Qed.

(** A [try] block with an empty handler, followed by [return]: the function
    returns, whatever the block does. *)
Lemma run_from_try_or {A} (host : Host) (body : Prog (option A)) (fallback : A) log :
  run_from host log (try_or body fallback) =
  match run_from host log body with
  | (Returned (Some a), log') => (Returned a, log')
  | (Returned None, log') => (Returned fallback, log')
  | (Thrown _, log') => (Returned fallback, log')
  end.
Proof.
  unfold try_or. rewrite run_from_bind, run_from_try_catch.
  destruct (run_from host log body) as [[[a|]|e] log']; reflexivity.
Qed.

(** The log only grows. *)
Lemma run_from_log {A} (host : Host) (p : Prog A) : forall log,
  exists more, snd (run_from host log p) = log ++ more.
Proof.
  induction p as [a|e|cmd k IH|ms k IH|url target k IH]; intros log; cbn [run_from snd].
  - exists []. now rewrite app_nil_r.
  - exists []. now rewrite app_nil_r.
  - destruct (IH (host log cmd) (log ++ [EvExec cmd])) as [more ->].
    exists (EvExec cmd :: more). now rewrite <- app_assoc.
  - destruct (IH (log ++ [EvDelay ms])) as [more ->].
    exists (EvDelay ms :: more). now rewrite <- app_assoc.
  - destruct (IH (log ++ [EvOpen url target])) as [more ->].
    exists (EvOpen url target :: more). now rewrite <- app_assoc.
Qed.

End RunFacts.

#[local] Ltac run_step :=
  cbn [run run_from bind try_catch await_or kernelsu_exec parse fst snd];
  rewrite ?app_nil_l.

(** ** The configuration and module-rule services *)

Section SpreadFacts.
Context {B : Builtins}.

Lemma fold_insert_lookup (l : list (jsstring * value)) : forall (t : object) (k : jsstring),
  NoDup (map fst l) ->
  fold_left (fun acc kv => <[kv.1 := kv.2]> acc) l t !! k =
  match (list_to_map l : object) !! k with
  | Some v => Some v
  | None => t !! k
  end.
Proof.
  induction l as [|[k0 v0] l IH]; intros t k Hnd; cbn [fold_left].
  - cbn. now rewrite lookup_empty.
  - cbn [map fst] in Hnd. apply NoDup_cons in Hnd as [Hfresh Hnd].
    rewrite IH by exact Hnd. cbn [list_to_map foldr fst snd uncurry].
    change (foldr (fun kv => <[kv.1 := kv.2]>) ∅ l) with (list_to_map l : object).
    destruct (decide (k0 = k)) as [->|Hne].
    + rewrite lookup_insert_eq.
      rewrite (not_elem_of_list_to_map_1 (M := gmap jsstring) l k Hfresh).
      now rewrite lookup_insert_eq.
    + rewrite !lookup_insert_ne by exact Hne. reflexivity.
Qed.

(** Spreading a record: remote wins, key by key. *)
Lemma spread_record_lookup (t r : object) (k : jsstring) :
  spread t (JObj r) !! k = match r !! k with Some v => Some v | None => t !! k end.
Proof.
  unfold spread. cbn [own_properties].
  rewrite fold_insert_lookup by apply NoDup_fst_map_to_list.
  now rewrite list_to_map_to_list.
Qed.

Lemma spread_empty_record (r : object) : spread ∅ (JObj r) = r.
Proof.
  apply map_eq. intros k. rewrite spread_record_lookup, lookup_empty.
  now destruct (r !! k).
Qed.

End SpreadFacts.

Section Services.
Context {B : Builtins} {C : Constants}.

(** C1.  Each of the three write operations throws when the capability is
    absent, without an event; and when the call of its command resolves
    with a non-zero exit code it throws an error whose message is the
    operation's prefix followed by the remote stderr, so the message
    contains that text. *)
Theorem writes_fail_hard (host : Host) (config rules : value) (moduleId : jsstring)
    (r : KsuExecResult) (Hr : errno r <> 0%Z) :
  let cmdConfig :=
    PATHS_BINARY ++ lit " save-config --payload "
    ++ Codec.stringToHex TextEncoder_defined (JSON_stringify config) in
  let cmdReset := PATHS_BINARY ++ lit " gen-config" in
  let cmdRules :=
    PATHS_BINARY ++ lit " save-module-rules --module " ++ dq ++ moduleId ++ dq
    ++ lit " --payload " ++ Codec.stringToHex TextEncoder_defined (JSON_stringify rules) in
  (run host (RealAPI.saveConfig None config) = (Thrown (Error (lit "No KSU environment")), []) /\
   run host (RealAPI.resetConfig None) = (Thrown (Error (lit "No KSU environment")), []) /\
   run host (RealAPI.saveModuleRules None moduleId rules)
   = (Thrown (Error (lit "No KSU environment")), [])) /\
  (host [] cmdConfig = Resolved r ->
   run host (RealAPI.saveConfig (Some kernelsu_exec) config)
   = (Thrown (Error (lit "Failed to save config: " ++ stderr r)), [EvExec cmdConfig]) /\
   includes (stderr r) (lit "Failed to save config: " ++ stderr r) = true) /\
  (host [] cmdReset = Resolved r ->
   run host (RealAPI.resetConfig (Some kernelsu_exec))
   = (Thrown (Error (lit "Failed to reset config: " ++ stderr r)), [EvExec cmdReset]) /\
   includes (stderr r) (lit "Failed to reset config: " ++ stderr r) = true) /\
  (host [] cmdRules = Resolved r ->
   run host (RealAPI.saveModuleRules (Some kernelsu_exec) moduleId rules)
   = (Thrown (Error (lit "Failed to save rules: " ++ stderr r)), [EvExec cmdRules]) /\
   includes (stderr r) (lit "Failed to save rules: " ++ stderr r) = true).
Proof.
  intros cmdConfig cmdReset cmdRules.
  assert (Hne : negb (errno r =? 0)%Z = true)
    by (apply negb_true_iff, Z.eqb_neq; exact Hr).
  assert (Hin : forall pre, includes (stderr r) (pre ++ stderr r) = true).
  { intros pre. rewrite <- (app_nil_r (stderr r)) at 2. apply includes_app. }
  split; [repeat split|].
  split; [|split]; intros Hhost; (split; [|apply Hin]).
  - unfold RealAPI.saveConfig, RealAPI.stringToHex. run_step.
    fold cmdConfig. rewrite Hhost. run_step. now rewrite Hne.
  - unfold RealAPI.resetConfig. run_step.
    fold cmdReset. rewrite Hhost. run_step. now rewrite Hne.
  - unfold RealAPI.saveModuleRules, RealAPI.stringToHex. run_step.
    fold cmdRules. rewrite Hhost. run_step. now rewrite Hne.
Qed.

(** C2.  [loadConfig] returns whatever the capability does, and returns the
    default configuration itself when the capability is absent, when its
    call is rejected, when the command exits non-zero or prints nothing,
    and when the output is not JSON. *)
Theorem loadConfig_fail_soft (host : Host) (ksuExec : option KsuExec) :
  let cmd := PATHS_BINARY ++ lit " show-config" in
  (exists config, fst (run host (RealAPI.loadConfig ksuExec)) = Returned config) /\
  run host (RealAPI.loadConfig None) = (Returned (JObj DEFAULT_CONFIG), []) /\
  (forall r, host [] cmd = Resolved r -> errno r <> 0%Z ->
     fst (run host (RealAPI.loadConfig (Some kernelsu_exec))) = Returned (JObj DEFAULT_CONFIG)) /\
  (forall r, host [] cmd = Resolved r -> JSON_parse (stdout r) = None ->
     fst (run host (RealAPI.loadConfig (Some kernelsu_exec))) = Returned (JObj DEFAULT_CONFIG)) /\
  (forall r, host [] cmd = Resolved r -> stdout r = [] ->
     fst (run host (RealAPI.loadConfig (Some kernelsu_exec))) = Returned (JObj DEFAULT_CONFIG)) /\
  (forall e, host [] cmd = Rejected e ->
     fst (run host (RealAPI.loadConfig (Some kernelsu_exec))) = Returned (JObj DEFAULT_CONFIG)).
Proof.
  intros cmd. split; [|split; [reflexivity|]].
  - destruct ksuExec as [exec|]; [|eexists; reflexivity].
    unfold RealAPI.loadConfig, run. rewrite run_from_try_or.
    destruct (run_from host [] _) as [[[config|]|e] log]; eexists; reflexivity.
  - repeat split; intros r Hhost; try intros Hfail;
      unfold RealAPI.loadConfig, run; rewrite run_from_try_or; run_step;
      fold cmd; rewrite Hhost; run_step; try reflexivity.
    + apply Z.eqb_neq in Hfail. now rewrite Hfail.
    + destruct ((errno r =? 0)%Z && nonempty (stdout r)); [|reflexivity].
      unfold parse. rewrite Hfail. reflexivity.
    + rewrite Hfail. cbn [nonempty]. now rewrite andb_false_r.
Qed.

(** C4.  When the command exits with zero and prints a JSON record [R],
    [loadConfig] returns a record that holds [R]'s value at every key of
    [R] and the default's value at every other key; every key of the
    defaults is a key of the result. *)
Theorem loadConfig_merge (host : Host) (r : KsuExecResult) (R : object)
    (Hhost : host [] (PATHS_BINARY ++ lit " show-config") = Resolved r)
    (Hexit : errno r = 0%Z)
    (Hout : stdout r <> [])
    (Hparse : JSON_parse (stdout r) = Some (JObj R)) :
  exists merged : object,
    fst (run host (RealAPI.loadConfig (Some kernelsu_exec))) = Returned (JObj merged) /\
    (forall k, merged !! k = match R !! k with Some v => Some v | None => DEFAULT_CONFIG !! k end) /\
    dom DEFAULT_CONFIG ⊆ dom merged.
Proof.
  exists (spread (spread ∅ (JObj DEFAULT_CONFIG)) (JObj R)).
  assert (Hlookup : forall k,
    spread (spread ∅ (JObj DEFAULT_CONFIG)) (JObj R) !! k
    = match R !! k with Some v => Some v | None => DEFAULT_CONFIG !! k end).
  { intros k. now rewrite spread_record_lookup, spread_empty_record. }
  split; [|split].
  - unfold RealAPI.loadConfig, run. rewrite run_from_try_or. run_step.
    rewrite Hhost. run_step. rewrite Hexit. cbn [Z.eqb andb].
    destruct (stdout r) eqn:E; [contradiction|]. cbn [nonempty].
    unfold parse. rewrite Hparse. reflexivity.
  - exact Hlookup.
  - intros k [d Hd]%elem_of_dom. apply elem_of_dom. rewrite Hlookup, Hd.
    destruct (R !! k); eauto.
Qed.

(** C10.  [saveModules] never reads [ksuExec]: for every list of modules it
    returns without an event, whatever the host would answer; the three
    other write operations throw without the capability. *)
Theorem saveModules_discards (host : Host) (modules : value) :
  run host (RealAPI.saveModules modules) = (Returned tt, []) /\
  (forall config moduleId rules,
     (exists e, run host (RealAPI.saveConfig None config) = (Thrown e, [])) /\
     (exists e, run host (RealAPI.resetConfig None) = (Thrown e, [])) /\
     (exists e, run host (RealAPI.saveModuleRules None moduleId rules) = (Thrown e, []))).
Proof.
  split; [reflexivity|]. intros config moduleId rules.
  repeat split; eexists; reflexivity.
Qed.

End Services.

Section ServiceWitnesses.
Import Reference.

(** The scenario of the specification: a save of rules against a full
    disk. *)
Lemma writes_fail_hard_witness :
  errno disk_full <> 0%Z /\
  fst (run full_disk (RealAPI.saveModuleRules (Some kernelsu_exec) (lit "magisk_module_1") some_rules))
  = Thrown (Error (lit "Failed to save rules: disk full")) /\
  includes (lit "disk full") (lit "Failed to save rules: disk full") = true /\
  fst (run full_disk (RealAPI.saveConfig (Some kernelsu_exec) (JObj DEFAULT_CONFIG)))
  = Thrown (Error (lit "Failed to save config: disk full")) /\
  fst (run full_disk (RealAPI.resetConfig (Some kernelsu_exec)))
  = Thrown (Error (lit "Failed to reset config: disk full")).
Proof.
  assert (Hr : errno disk_full <> 0%Z) by discriminate.
  split; [exact Hr|].
  destruct (writes_fail_hard (B := builtins) (C := constants) full_disk
              (JObj DEFAULT_CONFIG) some_rules
              (lit "magisk_module_1") disk_full Hr) as (_ & Hconfig & Hreset & Hrules).
  destruct (Hconfig eq_refl) as [-> _].
  destruct (Hreset eq_refl) as [-> _].
  destruct (Hrules eq_refl) as [-> Hin].
  repeat split.
Defined.

(** A binary that prints a diagnostic instead of JSON. *)
Lemma loadConfig_fail_soft_witness :
  not_json [] (PATHS_BINARY ++ lit " show-config") = ok (lit "meta-hybrid: no config") /\
  JSON_parse (lit "meta-hybrid: no config") = None /\
  fst (run not_json (RealAPI.loadConfig (Some kernelsu_exec))) = Returned (JObj DEFAULT_CONFIG).
Proof.
  split; [reflexivity|]. split; [reflexivity|].
  destruct (loadConfig_fail_soft (B := builtins) (C := constants) not_json
              (Some kernelsu_exec)) as (_ & _ & _ & Hparse & _).
  exact (Hparse _ eq_refl eq_refl).
Defined.

(** A remote configuration that overrides one key and adds one. *)
Lemma loadConfig_merge_witness :
  remote [] (PATHS_BINARY ++ lit " show-config") = ok remote_text /\
  errno {| errno := 0; stdout := remote_text; stderr := [] |} = 0%Z /\
  remote_text <> [] /\
  JSON_parse remote_text = Some (JObj remote_record) /\
  exists merged : object,
    fst (run remote (RealAPI.loadConfig (Some kernelsu_exec))) = Returned (JObj merged) /\
    merged !! lit "moduledir" = Some (JStr (lit "/x")) /\
    merged !! lit "extra" = Some (JNum 1%Z) /\
    merged !! lit "mountsource" = Some (JStr (lit "KSU")).
Proof.
  assert (Hout : remote_text <> []) by discriminate.
  assert (Hparse : JSON_parse remote_text = Some (JObj remote_record)) by reflexivity.
  split; [reflexivity|]. split; [reflexivity|]. split; [exact Hout|]. split; [exact Hparse|].
  destruct (loadConfig_merge (B := builtins) (C := constants) remote _ remote_record
              eq_refl eq_refl Hout Hparse)
    as (merged & Hrun & Hlookup & _).
  exists merged. split; [exact Hrun|].
  rewrite !Hlookup. repeat split.
Defined.

End ServiceWitnesses.

(** ** The accent-colour resolver *)

Section FirstSome.
Context {A B : Type} (f : A -> option B).


Lemma first_some_Some (l : list A) (b : B) :
  first_some f l = Some b <->
  exists before x after,
    l = before ++ x :: after /\ (forall y, In y before -> f y = None) /\ f x = Some b.
Proof.
  induction l as [|a l IH]; cbn [first_some].
  - split; [discriminate|]. intros (before & x & after & E & _). now destruct before.
  - destruct (f a) eqn:E.
    + split.
      * intros [= <-]. exists [], a, l. repeat split; [intros y [] | exact E].
      * intros (before & x & after & El & Hb & Hx).
        destruct before as [|a' before]; cbn [app] in El; injection El as <- El.
        -- congruence.
        -- specialize (Hb a (or_introl eq_refl)). congruence.
    + rewrite IH. split.
      * intros (before & x & after & -> & Hb & Hx).
        exists (a :: before), x, after. repeat split; [|exact Hx].
        intros y [<-|Hy]; [exact E | now apply Hb].
      * intros (before & x & after & El & Hb & Hx).
        destruct before as [|a' before]; cbn [app] in El; injection El as <- El.
        -- congruence.
        -- exists before, x, after. repeat split; [exact El | | exact Hx].
           intros y Hy. apply Hb. now right.
Qed.

End FirstSome.

Section ColorFacts.
Import Color.




End ColorFacts.

Section Resolver.
Import Color.

(** The whole behaviour of [fetchSystemColor] with the capability: each
    command is issued only after the sources before it gave nothing. *)
Lemma fetchSystemColor_run (host : Host) :
  run host (RealAPI.fetchSystemColor (Some kernelsu_exec)) =
  match host [] cmd_settings with
  | Rejected _ => (Returned None, asked1)
  | Resolved r1 =>
  match from_settings (stdout r1) with
  | Some color => (Returned (Some color), asked1)
  | None =>
  match host asked1 cmd_wallpaper with
  | Rejected _ => (Returned None, asked2)
  | Resolved r2 =>
  match from_wallpaper (stdout r2) with
  | Some color => (Returned (Some color), asked2)
  | None =>
  match host asked2 cmd_overlays with
  | Rejected _ => (Returned None, asked3)
  | Resolved r3 =>
  match from_overlays (stdout r3) with
  | Some color => (Returned (Some color), asked3)
  | None =>
  match host asked3 cmd_property with
  | Rejected _ => (Returned None, asked4)
  | Resolved r4 =>
  match from_property (stdout r4) with
  | Some color => (Returned (Some color), asked4)
  | None => (Returned None, asked4)
  end end end end end end end end.
Proof.
  unfold RealAPI.fetchSystemColor, run. rewrite run_from_try_or. run_step.
  change [EvExec cmd_settings] with asked1.
  destruct (host [] cmd_settings) as [r1|e1]; run_step; [|reflexivity].
  destruct (from_settings (stdout r1)); run_step; [reflexivity|].
  change (asked1 ++ [EvExec cmd_wallpaper]) with asked2.
  destruct (host asked1 cmd_wallpaper) as [r2|e2]; run_step; [|reflexivity].
  destruct (from_wallpaper (stdout r2)); run_step; [reflexivity|].
  change (asked2 ++ [EvExec cmd_overlays]) with asked3.
  destruct (host asked2 cmd_overlays) as [r3|e3]; run_step; [|reflexivity].
  destruct (from_overlays (stdout r3)); run_step; [reflexivity|].
  change (asked3 ++ [EvExec cmd_property]) with asked4.
  destruct (host asked3 cmd_property) as [r4|e4]; run_step; [|reflexivity].
  destruct (from_property (stdout r4)); reflexivity.
Qed.


End Resolver.

Section ResolverWitnesses.
Import Color Reference.



End ResolverWitnesses.

(** C6 at its failing inputs.  An eight-digit value of the theme property
    comes back with its alpha byte, nine characters long; and a seven-digit
    run in the settings key comes back with seven digits. *)
Theorem fetchSystemColor_keeps_alpha :
  run Reference.property_argb (RealAPI.fetchSystemColor (Some kernelsu_exec))
  = (Returned (Some (lit "#FF112233")), Color.asked4) /\
  Color.from_property (lit "FF112233" ++ [10%N]) = Some (lit "#FF112233") /\
  Color.from_settings (lit "source_color:#1234567") = Some (lit "#1234567") /\
  Color.from_wallpaper (lit "mMainColor=0xFF112233") = Some (lit "#112233").
Proof. repeat split; vm_compute; reflexivity. Qed.

(** C8 at its failing input.  The SDK-level query exits with 1 and the
    release query succeeds: the version field is composed all the same,
    with an empty level, and is not the literal [14]. *)
Theorem getDeviceStatus_sdk_unchecked :
  fst (run Reference.sdk_fails (RealAPI.getDeviceStatus (Some kernelsu_exec)))
  = Returned {| model := lit "Pixel 8"; android := lit "14 (API )";
                dev_kernel := lit "5.15.110"; dev_selinux := lit "Enforcing" |} /\
  lit "14 (API )" <> lit "14".
Proof. split; [vm_compute; reflexivity | discriminate]. Qed.

(** C9 at its failing input.  The real object has every member of the
    interface; the mock object lacks five of them, so under the mock binding
    these names are undefined. *)
Theorem MockAPI_lacks_members :
  implements RealAPI_members AppAPI = true /\
  implements MockAPI_members AppAPI = false /\
  missing_members MockAPI_members AppAPI
  = ["saveModules"; "openLink"; "fetchSystemColor"; "reboot"; "readLogs"]%string /\
  (forall ksuExec, member "fetchSystemColor" (API_members true ksuExec) = None) /\
  (forall DEV, member "fetchSystemColor" (API_members DEV None) = None).
Proof.
  repeat split; try reflexivity.
  intros DEV. unfold API_members, shouldUseMock. now rewrite orb_true_r.
Qed.

(** ** The status aggregator *)

Section Aggregator.
Context {B : Builtins} {C : Constants}.
Import RealAPI.

Lemma tagged_line_state_fields (i : SystemInfo) (line : jsstring) :
  state_fields (tagged_line i line) = state_fields i.
Proof.
  unfold tagged_line.
  destruct (startsWith (lit "KERNEL:") line); [reflexivity|].
  destruct (startsWith (lit "SELINUX:") line); reflexivity.
Qed.

Lemma read_tagged_state_fields (e : Z) (out : jsstring) (i : SystemInfo) :
  state_fields (read_tagged e out i) = state_fields i.
Proof.
  unfold read_tagged. destruct ((e =? 0)%Z && nonempty out); [|reflexivity].
  revert i. induction (split 10 out) as [|line lines IH]; intros i; cbn [fold_left].
  - reflexivity.
  - rewrite IH. apply tagged_line_state_fields.
Qed.

Lemma read_state_tagged_fields (e : Z) (out : jsstring) (i : SystemInfo) :
  tagged_fields (read_state e out i) = tagged_fields i.
Proof.
  unfold read_state, read_state_json.
  destruct ((e =? 0)%Z && nonempty out); [|reflexivity].
  destruct (JSON_parse out) as [state|]; [|reflexivity].
  destruct (get_property state (lit "mount_point")); [|reflexivity].
  destruct (get_property state (lit "active_mounts")); [|reflexivity].
  destruct (get_property state (lit "zygisksu_enforce")) as [[z|]|]; try reflexivity;
    destruct (get_property state (lit "tmpfs_xattr_supported")) as [[t|]|]; reflexivity.
Qed.

(** What the state file contributes does not depend on the tagged lines. *)
Lemma read_state_state_fields (e : Z) (out : jsstring) (i j : SystemInfo) :
  state_fields i = state_fields j ->
  state_fields (read_state e out i) = state_fields (read_state e out j).
Proof.
  intros E. unfold read_state, read_state_json.
  destruct ((e =? 0)%Z && nonempty out); [|exact E].
  destruct (JSON_parse out) as [state|]; [|exact E].
  unfold state_fields in *. injection E as E1 E2 E3 E4.
  destruct (get_property state (lit "mount_point")); [|cbn; congruence].
  destruct (get_property state (lit "active_mounts")); [|cbn; congruence].
  destruct (get_property state (lit "zygisksu_enforce")) as [[z|]|]; [| |cbn; congruence];
    destruct (get_property state (lit "tmpfs_xattr_supported")) as [[t|]|]; cbn; congruence.
Qed.

(** When both calls resolve, the record is assembled from both. *)
Lemma getSystemInfo_run (host : Host) (sys state : KsuExecResult) :
  host [] cmdSys = Resolved sys ->
  host [EvExec cmdSys] cmd_state = Resolved state ->
  run host (getSystemInfo (Some kernelsu_exec))
  = (Returned (read_state (errno state) (stdout state)
                 (read_tagged (errno sys) (stdout sys) blank_info)),
     [EvExec cmdSys; EvExec cmd_state]).
Proof.
  intros H1 H2. unfold getSystemInfo, run. rewrite run_from_try_catch. run_step.
  rewrite H1. run_step. rewrite H2. run_step. reflexivity.
Qed.

(** Every way a run of [getSystemInfo] with the capability can go. *)
Lemma getSystemInfo_run_all (host : Host) :
  run host (getSystemInfo (Some kernelsu_exec))
  = match host [] cmdSys with
    | Rejected _ => (Returned blank_info, [EvExec cmdSys])
    | Resolved sys =>
        match host [EvExec cmdSys] cmd_state with
        | Rejected _ => (Returned blank_info, [EvExec cmdSys; EvExec cmd_state])
        | Resolved state =>
            (Returned (read_state (errno state) (stdout state)
                         (read_tagged (errno sys) (stdout sys) blank_info)),
             [EvExec cmdSys; EvExec cmd_state])
        end
    end.
Proof.
  unfold getSystemInfo, run. rewrite run_from_try_catch. run_step.
  destruct (host [] cmdSys) as [sys|e]; run_step; [|reflexivity].
  destruct (host [EvExec cmdSys] cmd_state) as [state|e]; reflexivity.
Qed.

(** C7 (as amended).  When both calls of [getSystemInfo] settle with a
    result, both commands are issued; kernel and SELinux are what the tagged
    lines alone give and the mount fields are what the state file alone
    gives.  So a tagged-line command that exits non-zero leaves kernel and
    SELinux at ["-"] while a state file that parses to a record fills
    [mountBase] and [activeMounts]; and a state-file command that exits
    non-zero, or whose output is not JSON, leaves the mount fields at their
    sentinels while the tagged lines fill kernel and SELinux.  When a call
    is rejected the blank record is returned: after a rejected first call
    the state file is not read, and after a rejected second call what the
    tagged lines gave is dropped. *)
Theorem getSystemInfo_isolated (host : Host) :
  (forall sys state,
     host [] cmdSys = Resolved sys ->
     host [EvExec cmdSys] cmd_state = Resolved state ->
     exists info,
       run host (getSystemInfo (Some kernelsu_exec))
       = (Returned info, [EvExec cmdSys; EvExec cmd_state]) /\
       tagged_fields info = tagged_fields (read_tagged (errno sys) (stdout sys) blank_info) /\
       state_fields info = state_fields (read_state (errno state) (stdout state) blank_info) /\
       (errno sys <> 0%Z -> kernel info = lit "-" /\ selinux info = lit "-") /\
       (errno state <> 0%Z \/ JSON_parse (stdout state) = None ->
        mountBase info = JStr (lit "-") /\ activeMounts info = JArr []) /\
       (forall st : object,
          errno state = 0%Z -> stdout state <> [] ->
          JSON_parse (stdout state) = Some (JObj st) ->
          mountBase info = or_else (st !! lit "mount_point") (JStr (lit "Unknown")) /\
          activeMounts info = or_else (st !! lit "active_mounts") (JArr []))) /\
  (forall e,
     host [] cmdSys = Rejected e ->
     run host (getSystemInfo (Some kernelsu_exec)) = (Returned blank_info, [EvExec cmdSys])) /\
  (forall sys e,
     host [] cmdSys = Resolved sys ->
     host [EvExec cmdSys] cmd_state = Rejected e ->
     run host (getSystemInfo (Some kernelsu_exec))
     = (Returned blank_info, [EvExec cmdSys; EvExec cmd_state])).
Proof.
  split; [|split].
  2: { intros e He. now rewrite getSystemInfo_run_all, He. }
  2: { intros sys e Hs He. now rewrite getSystemInfo_run_all, Hs, He. }
  intros sys state Hsys Hstate.
  eexists. split; [apply getSystemInfo_run; eassumption|].
  assert (Ht : tagged_fields
                 (read_state (errno state) (stdout state)
                    (read_tagged (errno sys) (stdout sys) blank_info))
               = tagged_fields (read_tagged (errno sys) (stdout sys) blank_info))
    by apply read_state_tagged_fields.
  assert (Hs : state_fields
                 (read_state (errno state) (stdout state)
                    (read_tagged (errno sys) (stdout sys) blank_info))
               = state_fields (read_state (errno state) (stdout state) blank_info))
    by apply read_state_state_fields, read_tagged_state_fields.
  split; [exact Ht|]. split; [exact Hs|].
  unfold tagged_fields in Ht. injection Ht as Hk Hse.
  unfold state_fields in Hs. injection Hs as Hm Ha _ _.
  split; [|split].
  - intros Hne. rewrite Hk, Hse. unfold read_tagged.
    apply Z.eqb_neq in Hne. rewrite Hne. split; reflexivity.
  - intros Hfail. rewrite Hm, Ha. unfold read_state, read_state_json.
    destruct Hfail as [Hne|Hparse].
    + apply Z.eqb_neq in Hne. rewrite Hne. split; reflexivity.
    + rewrite Hparse. destruct ((errno state =? 0)%Z && nonempty (stdout state)); split; reflexivity.
  - intros st Hexit Hout Hparse. rewrite Hm, Ha. unfold read_state, read_state_json.
    rewrite Hexit. destruct (stdout state) eqn:E; [contradiction|].
    cbn [Z.eqb andb nonempty]. rewrite Hparse. cbn [get_property].
    destruct (st !! lit "zygisksu_enforce"); destruct (st !! lit "tmpfs_xattr_supported");
      split; reflexivity.
Qed.

End Aggregator.

Section AggregatorWitnesses.
Import RealAPI Reference.

(** The scenario of the specification: the tagged-line command fails and
    the state file is read. *)
Lemma getSystemInfo_isolated_witness :
  tagged_fails [] cmdSys = failed 1 (lit "uname: not found") /\
  tagged_fails [EvExec cmdSys] cmd_state = ok state_text /\
  JSON_parse state_text = Some (JObj state_record) /\
  exists info,
    fst (run tagged_fails (getSystemInfo (Some kernelsu_exec))) = Returned info /\
    kernel info = lit "-" /\ selinux info = lit "-" /\
    mountBase info = JStr (lit "/mnt") /\
    activeMounts info = JArr [JStr (lit "system")].
Proof.
  assert (Hparse : JSON_parse state_text = Some (JObj state_record)) by reflexivity.
  split; [reflexivity|]. split; [reflexivity|]. split; [exact Hparse|].
  destruct (getSystemInfo_isolated (B := builtins) (C := constants) tagged_fails)
    as (Hsettled & _ & _).
  destruct (Hsettled _ _ eq_refl eq_refl)
    as (info & Hrun & _ & _ & Htagged & _ & Hstate).
  exists info. rewrite Hrun. split; [reflexivity|].
  destruct Htagged as [-> ->]; [discriminate|].
  destruct (Hstate state_record eq_refl) as [-> ->]; [discriminate|exact Hparse|].
  repeat split.
Defined.

(** C7 as stated fails when a call is rejected.  On the first host the
    tagged lines are read, with kernel [6.1], and the state-file call is
    rejected: the result has kernel and SELinux back at ["-"].  On the second
    host the tagged-line call is rejected and the state file could be read:
    it is never asked for and [mountBase] stays ["-"]. *)
Lemma getSystemInfo_rejection_counterexample :
  state_unreachable [] cmdSys = ok tagged_text /\
  state_unreachable [EvExec cmdSys] cmd_state = Rejected (Error (lit "not found")) /\
  kernel (read_tagged 0 tagged_text blank_info) = lit "6.1" /\
  selinux (read_tagged 0 tagged_text blank_info) = lit "Enforcing" /\
  (exists info,
     run state_unreachable (getSystemInfo (Some kernelsu_exec))
     = (Returned info, [EvExec cmdSys; EvExec cmd_state]) /\
     kernel info = lit "-" /\ selinux info = lit "-") /\
  tagged_rejected [] cmdSys = Rejected (Error (lit "not found")) /\
  tagged_rejected [EvExec cmdSys] cmd_state = ok state_text /\
  JSON_parse state_text = Some (JObj state_record) /\
  state_record !! lit "mount_point" = Some (JStr (lit "/mnt")) /\
  (exists info,
     run tagged_rejected (getSystemInfo (Some kernelsu_exec))
     = (Returned info, [EvExec cmdSys]) /\
     mountBase info = JStr (lit "-") /\ activeMounts info = JArr []).
Proof.
  repeat (split; [reflexivity|]).
  split; [eexists; split; [reflexivity | split; reflexivity]|].
  repeat (split; [reflexivity|]).
  eexists. split; [reflexivity | split; reflexivity].
Qed.

End AggregatorWitnesses.

(** * Further properties of the code *)

(** ** The codec on ASCII text and on concatenations *)

Section CodecMore.
Import Codec.

Lemma stringToHex_flat_map (te : bool) (str : jsstring) :
  stringToHex te str = flat_map hex_of_byte (payload_bytes te str).
Proof.
  unfold stringToHex. cbv zeta. now rewrite fold_left_app_flat_map, app_nil_l.
Qed.

Lemma ascii_scalar_values (s : jsstring) :
  forallb (fun c => c <? 0x80)%N s = true -> to_scalar_values s = s.
Proof.
  induction s as [|c r IH]; cbn [forallb to_scalar_values]; [reflexivity|].
  intros [Hc Hr]%andb_prop. apply N.ltb_lt in Hc.
  unfold is_high_surrogate, is_low_surrogate.
  destruct (N.leb_spec 0xD800 c); [lia|]. cbn [andb].
  destruct (N.leb_spec 0xDC00 c); [lia|]. cbn [andb].
  now rewrite IH.
Qed.

Lemma ascii_payload_bytes (te : bool) (s : jsstring) :
  forallb (fun c => c <? 0x80)%N s = true -> payload_bytes te s = s.
Proof.
  intros Hs. destruct te; unfold payload_bytes.
  - unfold TextEncoder_encode. rewrite ascii_scalar_values by exact Hs.
    induction s as [|c r IH]; cbn [flat_map forallb] in *; [reflexivity|].
    apply andb_prop in Hs as [Hc Hr]. rewrite IH by exact Hr.
    unfold utf8_encode. now rewrite Hc.
  - induction s as [|c r IH]; cbn [map forallb] in *; [reflexivity|].
    apply andb_prop in Hs as [Hc Hr]. rewrite IH by exact Hr. f_equal.
    apply N.ltb_lt in Hc. change 0xff%N with (N.ones 8). rewrite N.land_ones.
    apply N.mod_small. lia.
Qed.

(** X1.  On text of ASCII code units the path through [TextEncoder] and
    the fallback path of [stringToHex] give the same token, two digits for
    each code unit. *)
Theorem stringToHex_ascii (s : jsstring)
    (Hs : forallb (fun c => c <? 0x80)%N s = true) :
  Codec.stringToHex true s = Codec.stringToHex false s /\
  Codec.stringToHex true s = flat_map hex_pair s.
Proof.
  assert (Hb : all_bytes s).
  { clear -Hs. induction s as [|c r IH]; [constructor|].
    cbn [forallb] in Hs. apply andb_prop in Hs as [Hc Hr]. apply N.ltb_lt in Hc.
    constructor; [lia | now apply IH]. }
  assert (Ht : all_bytes (payload_bytes true s)) by now rewrite ascii_payload_bytes.
  assert (Hf : all_bytes (payload_bytes false s)) by now rewrite ascii_payload_bytes.
  rewrite (stringToHex_pairs true s Ht), (stringToHex_pairs false s Hf).
  now rewrite !ascii_payload_bytes by exact Hs.
Qed.

Lemma stringToHex_ascii_witness :
  forallb (fun c => c <? 0x80)%N (lit "{}") = true /\
  Codec.stringToHex true (lit "{}") = lit "7b7d" /\
  Codec.stringToHex false (lit "{}") = lit "7b7d".
Proof.
  split; [reflexivity|].
  destruct (stringToHex_ascii (lit "{}") eq_refl) as [E1 E2].
  split; [exact E2 | rewrite <- E1; exact E2].
Defined.

Lemma to_scalar_values_app (s1 : jsstring) : forall s2,
  isWellFormed s1 = true ->
  to_scalar_values (s1 ++ s2) = to_scalar_values s1 ++ to_scalar_values s2.
Proof.
  induction s1 as [s1 IH] using (induction_ltof1 _ (@length N)). unfold ltof in IH.
  intros s2 W. destruct s1 as [|c r]; [reflexivity|].
  cbn [app]. cbn [to_scalar_values isWellFormed] in *.
  destruct (is_high_surrogate c).
  - destruct r as [|d r']; [discriminate|]. apply andb_prop in W as [Hd W].
    cbn [app]. rewrite Hd. cbn [app]. f_equal. apply IH; [cbn; lia | exact W].
  - apply andb_prop in W as [Hc W]. apply negb_true_iff in Hc. rewrite Hc.
    cbn [app]. f_equal. apply IH; [cbn; lia | exact W].
Qed.

(** X2.  The token of a concatenation is the concatenation of the tokens:
    always on the fallback path, and with [TextEncoder] when the left part
    is well formed, so that the cut does not split a surrogate pair. *)
Theorem stringToHex_app (s1 s2 : jsstring) :
  Codec.stringToHex false (s1 ++ s2)
  = Codec.stringToHex false s1 ++ Codec.stringToHex false s2 /\
  (isWellFormed s1 = true ->
   Codec.stringToHex true (s1 ++ s2)
   = Codec.stringToHex true s1 ++ Codec.stringToHex true s2).
Proof.
  rewrite !stringToHex_flat_map. split.
  - unfold payload_bytes. now rewrite map_app, flat_map_app.
  - intros W. unfold payload_bytes, TextEncoder_encode.
    now rewrite to_scalar_values_app, !flat_map_app by exact W.
Qed.

Lemma stringToHex_app_witness :
  isWellFormed [0xD83D; 0xDE00]%N = true /\
  Codec.stringToHex true ([0xD83D; 0xDE00]%N ++ lit "a") = lit "f09f988061".
Proof.
  split; [reflexivity|].
  destruct (stringToHex_app [0xD83D; 0xDE00]%N (lit "a")) as [_ H].
  rewrite (H eq_refl). reflexivity.
Defined.

End CodecMore.

(** ** The write operations *)

Section Writes.
Context {B : Builtins} {C : Constants}.

(** The tail shared by the three write operations: one command, then the
    exit code decides. *)
Lemma run_write (host : Host) (cmd prefix : jsstring) :
  run host
    (let* r := kernelsu_exec cmd in
     if negb (errno r =? 0)%Z then Throw (Error (prefix ++ stderr r)) else Ret tt)
  = match host [] cmd with
    | Resolved r =>
        if (errno r =? 0)%Z then (Returned tt, [EvExec cmd])
        else (Thrown (Error (prefix ++ stderr r)), [EvExec cmd])
    | Rejected e => (Thrown e, [EvExec cmd])
    end.
Proof.
  run_step. destruct (host [] cmd) as [r|e]; run_step; [|reflexivity].
  destruct (errno r =? 0)%Z; reflexivity.
Qed.

Lemma saveConfig_trace (host : Host) (config : value) :
  snd (run host (RealAPI.saveConfig (Some kernelsu_exec) config))
  = [EvExec (PATHS_BINARY ++ lit " save-config --payload "
             ++ Codec.stringToHex TextEncoder_defined (JSON_stringify config))].
Proof.
  unfold RealAPI.saveConfig, RealAPI.stringToHex. cbv zeta. rewrite run_write.
  match goal with |- context [host [] ?c] => destruct (host [] c) as [r|e] end;
    [destruct (errno r =? 0)%Z|]; reflexivity.
Qed.

(** X3.  A write operation issues exactly one command, whatever happens;
    it returns when the command exits with zero, whatever the command
    printed, and a rejected call is thrown on to the caller unchanged. *)
Theorem writes_settle (host : Host) (config rules : value) (moduleId : jsstring) :
  let cmdConfig :=
    PATHS_BINARY ++ lit " save-config --payload "
    ++ Codec.stringToHex TextEncoder_defined (JSON_stringify config) in
  let cmdReset := PATHS_BINARY ++ lit " gen-config" in
  let cmdRules :=
    PATHS_BINARY ++ lit " save-module-rules --module " ++ dq ++ moduleId ++ dq
    ++ lit " --payload " ++ Codec.stringToHex TextEncoder_defined (JSON_stringify rules) in
  (snd (run host (RealAPI.saveConfig (Some kernelsu_exec) config)) = [EvExec cmdConfig] /\
   snd (run host (RealAPI.resetConfig (Some kernelsu_exec))) = [EvExec cmdReset] /\
   snd (run host (RealAPI.saveModuleRules (Some kernelsu_exec) moduleId rules))
   = [EvExec cmdRules]) /\
  (forall r, errno r = 0%Z ->
     (host [] cmdConfig = Resolved r ->
      fst (run host (RealAPI.saveConfig (Some kernelsu_exec) config)) = Returned tt) /\
     (host [] cmdReset = Resolved r ->
      fst (run host (RealAPI.resetConfig (Some kernelsu_exec))) = Returned tt) /\
     (host [] cmdRules = Resolved r ->
      fst (run host (RealAPI.saveModuleRules (Some kernelsu_exec) moduleId rules))
      = Returned tt)) /\
  (forall e,
     (host [] cmdConfig = Rejected e ->
      fst (run host (RealAPI.saveConfig (Some kernelsu_exec) config)) = Thrown e) /\
     (host [] cmdReset = Rejected e ->
      fst (run host (RealAPI.resetConfig (Some kernelsu_exec))) = Thrown e) /\
     (host [] cmdRules = Rejected e ->
      fst (run host (RealAPI.saveModuleRules (Some kernelsu_exec) moduleId rules))
      = Thrown e)).
Proof.
  intros cmdConfig cmdReset cmdRules.
  unfold RealAPI.saveConfig, RealAPI.resetConfig, RealAPI.saveModuleRules,
    RealAPI.stringToHex. cbv zeta.
  fold cmdConfig cmdReset cmdRules. rewrite !run_write.
  split; [|split].
  - repeat split.
    + destruct (host [] cmdConfig) as [r|e]; [destruct (errno r =? 0)%Z|]; reflexivity.
    + destruct (host [] cmdReset) as [r|e]; [destruct (errno r =? 0)%Z|]; reflexivity.
    + destruct (host [] cmdRules) as [r|e]; [destruct (errno r =? 0)%Z|]; reflexivity.
  - intros r Hr. repeat split; intros ->; now rewrite Hr.
  - intros e. repeat split; intros ->; reflexivity.
Qed.

(** X4.  Whatever the configuration or the rule set holds, the payload
    that [saveConfig] and [saveModuleRules] put on the command line is made
    of lowercase hex digits only. *)
Theorem payload_is_hex (host : Host) (config rules : value) (moduleId : jsstring)
    (Hconfig : is_jsstring (JSON_stringify config) = true)
    (Hrules : is_jsstring (JSON_stringify rules) = true) :
  exists token1 token2,
    snd (run host (RealAPI.saveConfig (Some kernelsu_exec) config))
    = [EvExec (PATHS_BINARY ++ lit " save-config --payload " ++ token1)] /\
    snd (run host (RealAPI.saveModuleRules (Some kernelsu_exec) moduleId rules))
    = [EvExec (PATHS_BINARY ++ lit " save-module-rules --module " ++ dq ++ moduleId ++ dq
               ++ lit " --payload " ++ token2)] /\
    forallb is_lower_hex token1 = true /\ forallb is_lower_hex token2 = true.
Proof.
  assert (Hhex : forall s, is_jsstring s = true ->
            forallb is_lower_hex (Codec.stringToHex TextEncoder_defined s) = true).
  { intros s Hs.
    assert (Hb : all_bytes (Codec.payload_bytes TextEncoder_defined s))
      by (destruct TextEncoder_defined; [now apply TextEncoder_all_bytes | apply fallback_all_bytes]).
    rewrite (stringToHex_pairs _ s Hb). now apply lower_hex_flat_map_hex_pair. }
  exists (Codec.stringToHex TextEncoder_defined (JSON_stringify config)),
         (Codec.stringToHex TextEncoder_defined (JSON_stringify rules)).
  unfold RealAPI.saveConfig, RealAPI.saveModuleRules, RealAPI.stringToHex. cbv zeta.
  rewrite !run_write. repeat split.
  - match goal with |- context [host [] ?c] => destruct (host [] c) as [r|e] end;
      [destruct (errno r =? 0)%Z|]; reflexivity.
  - match goal with |- context [host [] ?c] => destruct (host [] c) as [r|e] end;
      [destruct (errno r =? 0)%Z|]; reflexivity.
  - now apply Hhex.
  - now apply Hhex.
Qed.

(** X5.  With [TextEncoder], two configurations whose serialisations are
    well formed and differ are never saved by the same command. *)
Theorem save_command_injective (host : Host) (c1 c2 : value)
    (Hte : TextEncoder_defined = true)
    (J1 : is_jsstring (JSON_stringify c1) = true)
    (J2 : is_jsstring (JSON_stringify c2) = true)
    (W1 : isWellFormed (JSON_stringify c1) = true)
    (W2 : isWellFormed (JSON_stringify c2) = true)
    (Hcmd : snd (run host (RealAPI.saveConfig (Some kernelsu_exec) c1))
            = snd (run host (RealAPI.saveConfig (Some kernelsu_exec) c2))) :
  JSON_stringify c1 = JSON_stringify c2.
Proof.
  rewrite !saveConfig_trace in Hcmd.
  assert (Hsame : forall a b : jsstring, [EvExec a] = [EvExec b] -> a = b) by congruence.
  apply Hsame in Hcmd. clear Hsame.
  apply app_inv_head in Hcmd. apply app_inv_head in Hcmd. rewrite Hte in Hcmd.
  rewrite (stringToHex_pairs true _ (TextEncoder_all_bytes _ J1)) in Hcmd.
  rewrite (stringToHex_pairs true _ (TextEncoder_all_bytes _ J2)) in Hcmd.
  apply flat_map_hex_pair_inj in Hcmd; try now apply TextEncoder_all_bytes.
  now apply TextEncoder_encode_inj.
Qed.

End Writes.

Section WritesWitnesses.
Import Reference.

Lemma writes_settle_witness :
  errno {| errno := 0; stdout := []; stderr := [] |} = 0%Z /\
  fst (run accepting (RealAPI.saveModuleRules (Some kernelsu_exec) (lit "m") some_rules))
  = Returned tt /\
  fst (run unreachable (RealAPI.resetConfig (Some kernelsu_exec)))
  = Thrown (Error (lit "not found")).
Proof.
  split; [reflexivity|].
  destruct (writes_settle (B := builtins) (C := constants) accepting
              (JObj DEFAULT_CONFIG) some_rules (lit "m")) as (_ & Hok & _).
  destruct (Hok {| errno := 0; stdout := []; stderr := [] |} eq_refl) as (_ & _ & Hrules).
  destruct (writes_settle (B := builtins) (C := constants) unreachable
              (JObj DEFAULT_CONFIG) some_rules (lit "m")) as (_ & _ & Hrej).
  destruct (Hrej (Error (lit "not found"))) as (_ & Hreset & _).
  split; [exact (Hrules eq_refl) | exact (Hreset eq_refl)].
Defined.

Lemma payload_is_hex_witness :
  is_jsstring (JSON_stringify (JObj DEFAULT_CONFIG)) = true /\
  is_jsstring (JSON_stringify some_rules) = true /\
  exists token,
    snd (run accepting (RealAPI.saveConfig (Some kernelsu_exec) (JObj DEFAULT_CONFIG)))
    = [EvExec (PATHS_BINARY ++ lit " save-config --payload " ++ token)] /\
    forallb is_lower_hex token = true.
Proof.
  assert (J1 : is_jsstring (JSON_stringify (JObj DEFAULT_CONFIG)) = true) by reflexivity.
  assert (J2 : is_jsstring (JSON_stringify some_rules) = true) by reflexivity.
  split; [exact J1|]. split; [exact J2|].
  destruct (payload_is_hex (B := builtins) (C := constants) accepting
              (JObj DEFAULT_CONFIG) some_rules (lit "m") J1 J2)
    as (token1 & token2 & E1 & _ & H1 & _).
  exists token1. split; [exact E1 | exact H1].
Defined.

Lemma save_command_injective_witness :
  TextEncoder_defined = true /\
  is_jsstring (JSON_stringify some_rules) = true /\
  isWellFormed (JSON_stringify some_rules) = true /\
  JSON_stringify some_rules = JSON_stringify some_rules.
Proof.
  assert (J : is_jsstring (JSON_stringify some_rules) = true) by reflexivity.
  assert (W : isWellFormed (JSON_stringify some_rules) = true) by reflexivity.
  split; [reflexivity|]. split; [exact J|]. split; [exact W|].
  exact (save_command_injective (B := builtins) (C := constants) accepting
           some_rules some_rules eq_refl J J W W eq_refl).
Defined.

End WritesWitnesses.

(** ** The read operations *)

Section Reads.
Context {B : Builtins} {C : Constants}.

(** One command inside a [try] block with an empty handler. *)
Lemma run_try_exec {A} (host : Host) (cmd : jsstring)
    (k : KsuExecResult -> Prog (option A)) (fallback : A) :
  run host (try_or (let* r := kernelsu_exec cmd in k r) fallback)
  = match host [] cmd with
    | Rejected _ => (Returned fallback, [EvExec cmd])
    | Resolved r => run_from host [EvExec cmd] (try_or (k r) fallback)
    end.
Proof.
  unfold run. rewrite run_from_try_or. run_step.
  destruct (host [] cmd) as [r|e]; run_step; [|reflexivity].
  now rewrite run_from_try_or.
Qed.

(** What the guarded [JSON.parse] of a read operation does with the answer
    of its command. *)
Lemma run_parsed {A} (host : Host) (log : list event) (r : KsuExecResult)
    (use : value -> Prog (option A)) (fallback : A) :
  run_from host log
    (try_or (if (errno r =? 0)%Z && nonempty (stdout r)
             then let* v := parse (stdout r) in use v
             else Ret None) fallback)
  = if (errno r =? 0)%Z && nonempty (stdout r) then
      match JSON_parse (stdout r) with
      | Some v => run_from host log (try_or (use v) fallback)
      | None => (Returned fallback, log)
      end
    else (Returned fallback, log).
Proof.
  destruct ((errno r =? 0)%Z && nonempty (stdout r)); [|reflexivity].
  unfold parse. destruct (JSON_parse (stdout r)); reflexivity.
Qed.

(** X6.  [scanModules] returns whatever happens; it returns the empty
    list without the capability, on a rejected call, on a non-zero exit, on
    empty output and on output that is not JSON, and otherwise the parsed
    value as it is, array or not.  With the capability it issues its one
    command. *)
Theorem scanModules_fail_soft (host : Host) (path : option jsstring) :
  let cmd := PATHS_BINARY ++ lit " modules" in
  run host (RealAPI.scanModules None path) = (Returned (JArr []), []) /\
  snd (run host (RealAPI.scanModules (Some kernelsu_exec) path)) = [EvExec cmd] /\
  (forall ksuExec, exists modules,
     fst (run host (RealAPI.scanModules ksuExec path)) = Returned modules) /\
  (forall e, host [] cmd = Rejected e ->
     fst (run host (RealAPI.scanModules (Some kernelsu_exec) path)) = Returned (JArr [])) /\
  (forall r, host [] cmd = Resolved r ->
     errno r <> 0%Z \/ stdout r = [] \/ JSON_parse (stdout r) = None ->
     fst (run host (RealAPI.scanModules (Some kernelsu_exec) path)) = Returned (JArr [])) /\
  (forall r modules, host [] cmd = Resolved r ->
     errno r = 0%Z -> stdout r <> [] -> JSON_parse (stdout r) = Some modules ->
     fst (run host (RealAPI.scanModules (Some kernelsu_exec) path)) = Returned modules).
Proof.
  intros cmd. split; [reflexivity|].
  assert (Hrun : run host (RealAPI.scanModules (Some kernelsu_exec) path)
                 = match host [] cmd with
                   | Rejected _ => (Returned (JArr []), [EvExec cmd])
                   | Resolved r =>
                       if (errno r =? 0)%Z && nonempty (stdout r) then
                         match JSON_parse (stdout r) with
                         | Some v => (Returned v, [EvExec cmd])
                         | None => (Returned (JArr []), [EvExec cmd])
                         end
                       else (Returned (JArr []), [EvExec cmd])
                   end).
  { unfold RealAPI.scanModules. cbv zeta. fold cmd. rewrite run_try_exec.
    destruct (host [] cmd) as [r|e]; [|reflexivity].
    rewrite run_parsed. destruct ((errno r =? 0)%Z && nonempty (stdout r)); [|reflexivity].
    destruct (JSON_parse (stdout r)); reflexivity. }
  split; [|split; [|split; [|split]]].
  - rewrite Hrun. destruct (host [] cmd) as [r|e]; [|reflexivity].
    destruct ((errno r =? 0)%Z && nonempty (stdout r)); [|reflexivity].
    destruct (JSON_parse (stdout r)); reflexivity.
  - intros [exec|]; [|eexists; reflexivity].
    unfold RealAPI.scanModules, run. rewrite run_from_try_or.
    destruct (run_from host [] _) as [[[v|]|e] log]; eexists; reflexivity.
  - intros e He. now rewrite Hrun, He.
  - intros r Hr Hfail. rewrite Hrun, Hr.
    destruct Hfail as [Hne|[Hout|Hparse]].
    + apply Z.eqb_neq in Hne. now rewrite Hne.
    + rewrite Hout. cbn [nonempty]. now rewrite andb_false_r.
    + rewrite Hparse. now destruct ((errno r =? 0)%Z && nonempty (stdout r)).
  - intros r modules Hr Hexit Hout Hparse. rewrite Hrun, Hr, Hexit, Hparse.
    destruct (stdout r); [contradiction|reflexivity].
Qed.

End Reads.

Section Logs.
Context {B : Builtins} {C : Constants}.

(** X7.  [readLogs] returns whatever happens: the empty string without the
    capability, on a rejected call, on a non-zero exit and on empty output,
    and otherwise the output itself.  The file it reads is the [logfile] of
    the compiled-in defaults; when the defaults have no such key the command
    reads a file named [undefined]. *)
Theorem readLogs_fail_soft (host : Host) :
  let file := template (DEFAULT_CONFIG !! lit "logfile") in
  let cmd := lit "cat " ++ dq ++ file ++ dq in
  run host (RealAPI.readLogs None) = (Returned [], []) /\
  (forall path, DEFAULT_CONFIG !! lit "logfile" = Some (JStr path) -> file = path) /\
  (DEFAULT_CONFIG !! lit "logfile" = None -> file = lit "undefined") /\
  snd (run host (RealAPI.readLogs (Some kernelsu_exec))) = [EvExec cmd] /\
  (forall ksuExec, exists text, fst (run host (RealAPI.readLogs ksuExec)) = Returned text) /\
  (forall e, host [] cmd = Rejected e ->
     fst (run host (RealAPI.readLogs (Some kernelsu_exec))) = Returned []) /\
  (forall r, host [] cmd = Resolved r ->
     fst (run host (RealAPI.readLogs (Some kernelsu_exec)))
     = Returned (if (errno r =? 0)%Z then stdout r else [])).
Proof.
  intros file cmd. split; [reflexivity|].
  split; [intros path Hp; subst file; now rewrite Hp|].
  split; [intros Hn; subst file; now rewrite Hn|].
  assert (Hrun : run host (RealAPI.readLogs (Some kernelsu_exec))
                 = match host [] cmd with
                   | Rejected _ => (Returned [], [EvExec cmd])
                   | Resolved r =>
                       (Returned (if (errno r =? 0)%Z then stdout r else []), [EvExec cmd])
                   end).
  { unfold RealAPI.readLogs. fold file. fold cmd. rewrite run_try_exec.
    destruct (host [] cmd) as [r|e]; [|reflexivity].
    rewrite run_from_try_or.
    destruct (errno r =? 0)%Z; [|reflexivity]. cbn [andb].
    destruct (stdout r); reflexivity. }
  split; [|split; [|split]].
  - rewrite Hrun. now destruct (host [] cmd).
  - intros [exec|]; [|eexists; reflexivity].
    unfold RealAPI.readLogs, run. rewrite run_from_try_or.
    destruct (run_from host [] _) as [[[v|]|e] log]; eexists; reflexivity.
  - intros e He. now rewrite Hrun, He.
  - intros r Hr. now rewrite Hrun, Hr.
Qed.

(** X8.  [getStorageUsage] returns whatever happens.  Its [type] is null
    without the capability, on a rejected call, on a non-zero exit, on
    output that is not JSON and on the JSON text [null]; when the state
    file is a record, [type] is its [storage_mode] if that is there and
    truthy, and ["unknown"] otherwise. *)
Theorem getStorageUsage_fail_soft (host : Host) :
  run host (RealAPI.getStorageUsage None) = (Returned {| type := JNull |}, []) /\
  snd (run host (RealAPI.getStorageUsage (Some kernelsu_exec))) = [EvExec RealAPI.cmd_state] /\
  (forall ksuExec, exists status,
     fst (run host (RealAPI.getStorageUsage ksuExec)) = Returned status) /\
  (forall e, host [] RealAPI.cmd_state = Rejected e ->
     fst (run host (RealAPI.getStorageUsage (Some kernelsu_exec)))
     = Returned {| type := JNull |}) /\
  (forall r, host [] RealAPI.cmd_state = Resolved r ->
     errno r <> 0%Z \/ stdout r = [] \/ JSON_parse (stdout r) = None
     \/ JSON_parse (stdout r) = Some JNull ->
     fst (run host (RealAPI.getStorageUsage (Some kernelsu_exec)))
     = Returned {| type := JNull |}) /\
  (forall r (state : object), host [] RealAPI.cmd_state = Resolved r ->
     errno r = 0%Z -> stdout r <> [] -> JSON_parse (stdout r) = Some (JObj state) ->
     fst (run host (RealAPI.getStorageUsage (Some kernelsu_exec)))
     = Returned {| type := or_else (state !! lit "storage_mode") (JStr (lit "unknown")) |}).
Proof.
  split; [reflexivity|].
  assert (Hrun : run host (RealAPI.getStorageUsage (Some kernelsu_exec))
                 = match host [] RealAPI.cmd_state with
                   | Rejected _ => (Returned {| type := JNull |}, [EvExec RealAPI.cmd_state])
                   | Resolved r =>
                       (Returned
                          (if (errno r =? 0)%Z && nonempty (stdout r) then
                             match JSON_parse (stdout r) with
                             | Some state =>
                                 match get_property state (lit "storage_mode") with
                                 | Some mode =>
                                     {| type := or_else mode (JStr (lit "unknown")) |}
                                 | None => {| type := JNull |}
                                 end
                             | None => {| type := JNull |}
                             end
                           else {| type := JNull |}),
                        [EvExec RealAPI.cmd_state])
                   end).
  { unfold RealAPI.getStorageUsage. rewrite run_try_exec.
    destruct (host [] RealAPI.cmd_state) as [r|e]; [|reflexivity].
    rewrite run_parsed. destruct ((errno r =? 0)%Z && nonempty (stdout r)); [|reflexivity].
    destruct (JSON_parse (stdout r)) as [state|]; [|reflexivity].
    rewrite run_from_try_or.
    destruct (get_property state (lit "storage_mode")); reflexivity. }
  split; [|split; [|split; [|split]]].
  - rewrite Hrun. now destruct (host [] RealAPI.cmd_state).
  - intros [exec|]; [|eexists; reflexivity].
    unfold RealAPI.getStorageUsage, run. rewrite run_from_try_or.
    destruct (run_from host [] _) as [[[v|]|e] log]; eexists; reflexivity.
  - intros e He. now rewrite Hrun, He.
  - intros r Hr Hfail. rewrite Hrun, Hr. cbn [fst]. f_equal.
    destruct Hfail as [Hne|[Hout|[Hparse|Hnull]]].
    + apply Z.eqb_neq in Hne. now rewrite Hne.
    + rewrite Hout. cbn [nonempty]. now rewrite andb_false_r.
    + rewrite Hparse. now destruct ((errno r =? 0)%Z && nonempty (stdout r)).
    + rewrite Hnull. now destruct ((errno r =? 0)%Z && nonempty (stdout r)).
  - intros r state Hr Hexit Hout Hparse. rewrite Hrun, Hr, Hexit, Hparse.
    destruct (stdout r); [contradiction|reflexivity].
Qed.

(** X9.  When the command of [loadConfig] exits with zero and prints the
    JSON text of [null], of a boolean or of a number, the result holds
    exactly the defaults, after that one command. *)
Theorem loadConfig_not_a_record (host : Host) (r : KsuExecResult) (loaded : value)
    (Hhost : host [] (PATHS_BINARY ++ lit " show-config") = Resolved r)
    (Hexit : errno r = 0%Z) (Hout : stdout r <> [])
    (Hparse : JSON_parse (stdout r) = Some loaded)
    (Hprim : match loaded with JNull | JBool _ | JNum _ => True | _ => False end) :
  run host (RealAPI.loadConfig (Some kernelsu_exec))
  = (Returned (JObj DEFAULT_CONFIG), [EvExec (PATHS_BINARY ++ lit " show-config")]).
Proof.
  unfold RealAPI.loadConfig. cbv zeta. rewrite run_try_exec, Hhost, run_parsed.
  rewrite Hexit, Hparse. destruct (stdout r); [contradiction|]. cbn [Z.eqb nonempty andb].
  rewrite run_from_try_or. cbn [run_from]. rewrite spread_empty_record.
  destruct loaded; try contradiction; reflexivity.
Qed.

End Logs.

Section ReadsWitnesses.
Import Reference.

(** A binary that prints a record where a list is expected. *)
Lemma scanModules_fail_soft_witness :
  remote [] (PATHS_BINARY ++ lit " modules") = ok remote_text /\
  remote_text <> [] /\
  JSON_parse remote_text = Some (JObj remote_record) /\
  fst (run remote (RealAPI.scanModules (Some kernelsu_exec) None))
  = Returned (JObj remote_record) /\
  fst (run not_json (RealAPI.scanModules (Some kernelsu_exec) None)) = Returned (JArr []).
Proof.
  assert (Hout : remote_text <> []) by discriminate.
  assert (Hparse : JSON_parse remote_text = Some (JObj remote_record)) by reflexivity.
  split; [reflexivity|]. split; [exact Hout|]. split; [exact Hparse|].
  destruct (scanModules_fail_soft (B := builtins) (C := constants) remote None)
    as (_ & _ & _ & _ & _ & Hok).
  destruct (scanModules_fail_soft (B := builtins) (C := constants) not_json None)
    as (_ & _ & _ & _ & Hfail & _).
  split.
  - exact (Hok _ _ eq_refl eq_refl Hout Hparse).
  - apply (Hfail _ eq_refl). right. right. reflexivity.
Defined.

Lemma readLogs_fail_soft_witness :
  DEFAULT_CONFIG !! lit "logfile" = Some (JStr (lit "/data/adb/meta-hybrid/daemon.log")) /\
  run (prints (lit "mounted")) (RealAPI.readLogs (Some kernelsu_exec))
  = (Returned (lit "mounted"),
     [EvExec (lit "cat " ++ dq ++ lit "/data/adb/meta-hybrid/daemon.log" ++ dq)]) /\
  fst (run full_disk (RealAPI.readLogs (Some kernelsu_exec))) = Returned [].
Proof.
  assert (Hfile : DEFAULT_CONFIG !! lit "logfile"
                  = Some (JStr (lit "/data/adb/meta-hybrid/daemon.log"))) by reflexivity.
  split; [exact Hfile|].
  destruct (readLogs_fail_soft (B := builtins) (C := constants) (prints (lit "mounted")))
    as (_ & Hpath & _ & Htrace & _ & _ & Hok).
  destruct (readLogs_fail_soft (B := builtins) (C := constants) full_disk)
    as (_ & _ & _ & _ & _ & _ & Hfail).
  split.
  - apply injective_projections.
    + exact (Hok _ eq_refl).
    + rewrite Htrace, (Hpath _ Hfile). reflexivity.
  - exact (Hfail _ eq_refl).
Defined.

(** A state file without [storage_mode], and no state file at all. *)
Lemma getStorageUsage_fail_soft_witness :
  prints state_text [] RealAPI.cmd_state = ok state_text /\
  state_text <> [] /\ JSON_parse state_text = Some (JObj state_record) /\
  fst (run (prints state_text) (RealAPI.getStorageUsage (Some kernelsu_exec)))
  = Returned {| type := JStr (lit "unknown") |} /\
  fst (run full_disk (RealAPI.getStorageUsage (Some kernelsu_exec)))
  = Returned {| type := JNull |}.
Proof.
  assert (Hout : state_text <> []) by discriminate.
  assert (Hparse : JSON_parse state_text = Some (JObj state_record)) by reflexivity.
  split; [reflexivity|]. split; [exact Hout|]. split; [exact Hparse|].
  destruct (getStorageUsage_fail_soft (B := builtins) (C := constants) (prints state_text))
    as (_ & _ & _ & _ & _ & Hok).
  destruct (getStorageUsage_fail_soft (B := builtins) (C := constants) full_disk)
    as (_ & _ & _ & _ & Hfail & _).
  split.
  - exact (Hok _ state_record eq_refl eq_refl Hout Hparse).
  - apply (Hfail _ eq_refl). left. discriminate.
Defined.

Lemma loadConfig_not_a_record_witness :
  prints (lit "null") [] (PATHS_BINARY ++ lit " show-config") = ok (lit "null") /\
  JSON_parse (lit "null") = Some JNull /\
  fst (run (prints (lit "null")) (RealAPI.loadConfig (Some kernelsu_exec)))
  = Returned (JObj DEFAULT_CONFIG).
Proof.
  assert (Hout : lit "null" <> []) by discriminate.
  assert (Hparse : JSON_parse (lit "null") = Some JNull) by reflexivity.
  split; [reflexivity|]. split; [exact Hparse|].
  rewrite (loadConfig_not_a_record (B := builtins) (C := constants) (prints (lit "null"))
             _ JNull eq_refl eq_refl Hout Hparse I).
  reflexivity.
Defined.

End ReadsWitnesses.

(** ** More on the status aggregator *)

Section SystemInfoMore.
Context {B : Builtins} {C : Constants}.
Import RealAPI.

(** X10.  [getSystemInfo] returns whatever happens, for every value of
    [ksuExec] and every host; without the capability it returns the blank
    record without an event, and with it it issues the tagged-line command
    alone or the tagged-line command and then the state-file command. *)
Theorem getSystemInfo_returns (host : Host) :
  run host (getSystemInfo None) = (Returned blank_info, []) /\
  (forall ksuExec, exists info, fst (run host (getSystemInfo ksuExec)) = Returned info) /\
  (snd (run host (getSystemInfo (Some kernelsu_exec))) = [EvExec cmdSys] \/
   snd (run host (getSystemInfo (Some kernelsu_exec))) = [EvExec cmdSys; EvExec cmd_state]).
Proof.
  split; [reflexivity|]. split.
  - intros [exec|]; [|eexists; reflexivity].
    unfold getSystemInfo, run. rewrite run_from_try_catch.
    destruct (run_from host [] _) as [[info|e] log]; eexists; reflexivity.
  - rewrite getSystemInfo_run_all.
    destruct (host [] cmdSys) as [sys|e]; [|now left].
    destruct (host [EvExec cmdSys] cmd_state); now right.
Qed.





End SystemInfoMore.

Section StateFile.
Context {B : Builtins} {C : Constants}.
Import RealAPI.

Lemma read_state_json_record (out : jsstring) (st : object) (i : SystemInfo) :
  JSON_parse out = Some (JObj st) ->
  state_fields (read_state_json out i)
  = (or_else (st !! lit "mount_point") (JStr (lit "Unknown")),
     or_else (st !! lit "active_mounts") (JArr []),
     match st !! lit "zygisksu_enforce" with
     | Some v => Some (if truthy v then lit "1" else lit "0")
     | None => zygisksuEnforce i
     end,
     match st !! lit "tmpfs_xattr_supported" with
     | Some v => Some v
     | None => tmpfs_xattr_supported i
     end).
Proof.
  intros Hparse. unfold read_state_json. rewrite Hparse. cbn [get_property].
  destruct (st !! lit "zygisksu_enforce"), (st !! lit "tmpfs_xattr_supported"); reflexivity.
Qed.

(** X12.  What [getSystemInfo] makes of a state file that is read and is
    JSON.  The text [null] leaves every mount field at its sentinel.  A
    boolean, a number, a string or a list gives [mountBase] ["Unknown"] and
    no active mounts.  A record gives its [mount_point] or ["Unknown"], its
    [active_mounts] or the empty list, [zygisksuEnforce] ["1"] or ["0"] by
    the truthiness of [zygisksu_enforce] when that key is there and no such
    field when it is not, and [tmpfs_xattr_supported] as it is. *)
Theorem getSystemInfo_state_shapes (host : Host) (sys state : KsuExecResult)
    (Hsys : host [] cmdSys = Resolved sys)
    (Hstate : host [EvExec cmdSys] cmd_state = Resolved state)
    (Hexit : errno state = 0%Z) (Hout : stdout state <> []) :
  exists info,
    fst (run host (getSystemInfo (Some kernelsu_exec))) = Returned info /\
    (JSON_parse (stdout state) = Some JNull ->
     state_fields info = (JStr (lit "-"), JArr [], None, None)) /\
    (forall v, JSON_parse (stdout state) = Some v ->
       match v with JBool _ | JNum _ | JStr _ | JArr _ => True | _ => False end ->
       state_fields info = (JStr (lit "Unknown"), JArr [], None, None)) /\
    (forall st : object, JSON_parse (stdout state) = Some (JObj st) ->
       state_fields info
       = (or_else (st !! lit "mount_point") (JStr (lit "Unknown")),
          or_else (st !! lit "active_mounts") (JArr []),
          option_map (fun v => if truthy v then lit "1" else lit "0")
            (st !! lit "zygisksu_enforce"),
          st !! lit "tmpfs_xattr_supported")).
Proof.
  eexists. rewrite getSystemInfo_run_all, Hsys, Hstate. split; [reflexivity|].
  cbn [fst].
  rewrite (read_state_state_fields (errno state) (stdout state) _ blank_info)
    by apply read_tagged_state_fields.
  unfold read_state. rewrite Hexit.
  destruct (stdout state) as [|c out] eqn:E; [contradiction|]. cbn [Z.eqb andb nonempty].
  split; [|split].
  - intros Hparse. unfold read_state_json. now rewrite Hparse.
  - intros v Hparse Hv. unfold read_state_json. rewrite Hparse.
    destruct v; try contradiction; reflexivity.
  - intros st Hparse. rewrite (read_state_json_record _ st _ Hparse).
    destruct (st !! lit "zygisksu_enforce"), (st !! lit "tmpfs_xattr_supported"); reflexivity.
Qed.

Lemma read_tagged_rest (e : Z) (out : jsstring) (i : SystemInfo) :
  abi (read_tagged e out i) = abi i /\ hymofs_state (read_tagged e out i) = hymofs_state i.
Proof.
  unfold read_tagged. destruct ((e =? 0)%Z && nonempty out); [|split; reflexivity].
  revert i. induction (split 10 out) as [|line lines IH]; intros i; cbn [fold_left].
  - split; reflexivity.
  - destruct (IH (tagged_line i line)) as [-> ->]. unfold tagged_line.
    destruct (startsWith (lit "KERNEL:") line); [split; reflexivity|].
    destruct (startsWith (lit "SELINUX:") line); split; reflexivity.
Qed.

Lemma read_state_rest (e : Z) (out : jsstring) (i : SystemInfo) :
  abi (read_state e out i) = abi i /\ hymofs_state (read_state e out i) = hymofs_state i.
Proof.
  unfold read_state, read_state_json.
  destruct ((e =? 0)%Z && nonempty out); [|split; reflexivity].
  destruct (JSON_parse out) as [state|]; [|split; reflexivity].
  destruct (get_property state (lit "mount_point")); [|split; reflexivity].
  destruct (get_property state (lit "active_mounts")); [|split; reflexivity].
  destruct (get_property state (lit "zygisksu_enforce")) as [[z|]|]; try (split; reflexivity);
    destruct (get_property state (lit "tmpfs_xattr_supported")) as [[t|]|]; split; reflexivity.
Qed.

(** X13.  The real [getSystemInfo] never fills [abi] or [hymofs_state],
    with or without the capability and whatever the host answers. *)
Theorem getSystemInfo_never_fills (host : Host) :
  (forall info, fst (run host (getSystemInfo None)) = Returned info ->
     abi info = None /\ hymofs_state info = None) /\
  (forall info, fst (run host (getSystemInfo (Some kernelsu_exec))) = Returned info ->
     abi info = None /\ hymofs_state info = None).
Proof.
  split.
  - intros info [= <-]. split; reflexivity.
  - intros info. rewrite getSystemInfo_run_all.
    destruct (host [] cmdSys) as [sys|e]; [|intros [= <-]; split; reflexivity].
    destruct (host [EvExec cmdSys] cmd_state) as [state|e];
      [|intros [= <-]; split; reflexivity].
    intros [= <-].
    destruct (read_state_rest (errno state) (stdout state)
                (read_tagged (errno sys) (stdout sys) blank_info)) as [-> ->].
    destruct (read_tagged_rest (errno sys) (stdout sys) blank_info) as [-> ->].
    split; reflexivity.
Qed.

End StateFile.

Section SystemInfoWitnesses.
Import RealAPI Reference.


Lemma getSystemInfo_state_shapes_witness :
  tagged_fails [] cmdSys = failed 1 (lit "uname: not found") /\
  tagged_fails [EvExec cmdSys] cmd_state = ok state_text /\
  state_text <> [] /\ JSON_parse state_text = Some (JObj state_record) /\
  exists info,
    fst (run tagged_fails (getSystemInfo (Some kernelsu_exec))) = Returned info /\
    zygisksuEnforce info = Some (lit "0") /\ tmpfs_xattr_supported info = None.
Proof.
  assert (Hout : state_text <> []) by discriminate.
  assert (Hparse : JSON_parse state_text = Some (JObj state_record)) by reflexivity.
  split; [reflexivity|]. split; [reflexivity|]. split; [exact Hout|]. split; [exact Hparse|].
  destruct (getSystemInfo_state_shapes (B := builtins) (C := constants) tagged_fails
              _ _ eq_refl eq_refl eq_refl Hout)
    as (info & Hrun & _ & _ & Hrecord).
  exists info. split; [exact Hrun|].
  specialize (Hrecord state_record Hparse).
  pose proof (f_equal (fun f => snd (fst f)) Hrecord) as Hz.
  pose proof (f_equal snd Hrecord) as Ht.
  cbn [state_fields fst snd] in Hz, Ht. rewrite Hz, Ht. split; reflexivity.
Defined.

Lemma getSystemInfo_never_fills_witness :
  exists info,
    fst (run two_kernels (getSystemInfo (Some kernelsu_exec))) = Returned info /\
    abi info = None /\ hymofs_state info = None.
Proof.
  destruct (getSystemInfo_never_fills (B := builtins) (C := constants) two_kernels)
    as [_ H].
  eexists. split; [reflexivity|]. apply H. reflexivity.
Defined.

End SystemInfoWitnesses.

(** ** The device status *)

Section DeviceStatus.
Import RealAPI Device.

(** The whole behaviour of [getDeviceStatus] with the capability. *)
Lemma getDeviceStatus_run (host : Host) :
  run host (getDeviceStatus (Some kernelsu_exec)) =
  match host [] cmd_model with
  | Rejected _ => (Returned (device (lit "Device") (lit "14") (lit "Unknown")), asked1)
  | Resolved p1 =>
  let model := if (errno p1 =? 0)%Z then trim (stdout p1) else lit "Device" in
  match host asked1 cmd_release with
  | Rejected _ => (Returned (device model (lit "14") (lit "Unknown")), asked2)
  | Resolved p2 =>
  match host asked2 cmd_sdk with
  | Rejected _ => (Returned (device model (lit "14") (lit "Unknown")), asked3)
  | Resolved p3 =>
  let android :=
    if (errno p2 =? 0)%Z
    then trim (stdout p2) ++ lit " (API " ++ trim (stdout p3) ++ lit ")"
    else lit "14" in
  match host asked3 cmd_kernel with
  | Rejected _ => (Returned (device model android (lit "Unknown")), asked4)
  | Resolved p4 =>
  let kernel := if (errno p4 =? 0)%Z then trim (stdout p4) else lit "Unknown" in
  (Returned (device model android kernel), asked4)
  end end end end.
Proof.
  unfold getDeviceStatus. cbv zeta. run_step.
  change [EvExec (lit "getprop ro.product.model")] with asked1.
  change (lit "getprop ro.product.model") with cmd_model.
  destruct (host [] cmd_model) as [p1|e]; run_step; [|reflexivity].
  change (asked1 ++ [EvExec (lit "getprop ro.build.version.release")]) with asked2.
  change (lit "getprop ro.build.version.release") with cmd_release.
  destruct (host asked1 cmd_release) as [p2|e]; run_step; [|reflexivity].
  change (asked2 ++ [EvExec (lit "getprop ro.build.version.sdk")]) with asked3.
  change (lit "getprop ro.build.version.sdk") with cmd_sdk.
  destruct (host asked2 cmd_sdk) as [p3|e]; run_step; [|reflexivity].
  change (asked3 ++ [EvExec (lit "uname -r")]) with asked4.
  change (lit "uname -r") with cmd_kernel.
  destruct (host asked3 cmd_kernel) as [p4|e]; reflexivity.
Qed.

(** X14.  [getDeviceStatus] returns whatever happens and its SELinux label
    is always the literal [Enforcing].  When the four calls resolve, all
    four commands are issued whatever their exit codes; the model and the
    kernel are their trimmed outputs on exit code zero and the literals
    [Device] and [Unknown] otherwise; the version is the literal [14] when
    the release query fails, and otherwise the release followed by the
    output of the SDK query in brackets, whatever that query's exit code. *)
Theorem getDeviceStatus_fields (host : Host) :
  run host (getDeviceStatus None)
  = (Returned (device (lit "Device") (lit "14") (lit "Unknown")), []) /\
  (exists d, fst (run host (getDeviceStatus (Some kernelsu_exec))) = Returned d /\
             dev_selinux d = lit "Enforcing") /\
  (forall p1 p2 p3 p4,
     host [] cmd_model = Resolved p1 -> host asked1 cmd_release = Resolved p2 ->
     host asked2 cmd_sdk = Resolved p3 -> host asked3 cmd_kernel = Resolved p4 ->
     run host (getDeviceStatus (Some kernelsu_exec))
     = (Returned
          {| model := if (errno p1 =? 0)%Z then trim (stdout p1) else lit "Device";
             android := if (errno p2 =? 0)%Z
                        then trim (stdout p2) ++ lit " (API " ++ trim (stdout p3) ++ lit ")"
                        else lit "14";
             dev_kernel := if (errno p4 =? 0)%Z then trim (stdout p4) else lit "Unknown";
             dev_selinux := lit "Enforcing" |},
        asked4)).
Proof.
  split; [reflexivity|]. split.
  - rewrite getDeviceStatus_run.
    destruct (host [] cmd_model) as [p1|e]; [|eexists; split; reflexivity].
    destruct (host asked1 cmd_release) as [p2|e]; [|eexists; split; reflexivity].
    destruct (host asked2 cmd_sdk) as [p3|e]; [|eexists; split; reflexivity].
    destruct (host asked3 cmd_kernel) as [p4|e]; eexists; split; reflexivity.
  - intros p1 p2 p3 p4 H1 H2 H3 H4.
    now rewrite getDeviceStatus_run, H1, H2, H3, H4.
Qed.

(** X15.  A rejected call ends the queries of [getDeviceStatus]: no later
    command is issued and the fields not yet assigned keep their literals.
    The model assigned before is kept; a release that was read is dropped
    when the SDK call is rejected, the version being assigned after both. *)
Theorem getDeviceStatus_rejected (host : Host) :
  (forall e, host [] cmd_model = Rejected e ->
     run host (getDeviceStatus (Some kernelsu_exec))
     = (Returned (device (lit "Device") (lit "14") (lit "Unknown")), asked1)) /\
  (forall p1 e, host [] cmd_model = Resolved p1 -> host asked1 cmd_release = Rejected e ->
     run host (getDeviceStatus (Some kernelsu_exec))
     = (Returned (device (if (errno p1 =? 0)%Z then trim (stdout p1) else lit "Device")
                    (lit "14") (lit "Unknown")), asked2)) /\
  (forall p1 p2 e, host [] cmd_model = Resolved p1 -> host asked1 cmd_release = Resolved p2 ->
     host asked2 cmd_sdk = Rejected e ->
     run host (getDeviceStatus (Some kernelsu_exec))
     = (Returned (device (if (errno p1 =? 0)%Z then trim (stdout p1) else lit "Device")
                    (lit "14") (lit "Unknown")), asked3)).
Proof.
  repeat split.
  - intros e H1. now rewrite getDeviceStatus_run, H1.
  - intros p1 e H1 H2. now rewrite getDeviceStatus_run, H1, H2.
  - intros p1 p2 e H1 H2 H3. now rewrite getDeviceStatus_run, H1, H2, H3.
Qed.

End DeviceStatus.

Section DeviceWitnesses.
Import RealAPI Device Reference.

Lemma getDeviceStatus_fields_witness :
  sdk_fails [] cmd_model = ok (lit "Pixel 8" ++ [10%N]) /\
  sdk_fails asked1 cmd_release = ok (lit "14" ++ [10%N]) /\
  sdk_fails asked2 cmd_sdk = failed 1 (lit "getprop: not found") /\
  sdk_fails asked3 cmd_kernel = ok (lit "5.15.110" ++ [10%N]) /\
  run sdk_fails (getDeviceStatus (Some kernelsu_exec))
  = (Returned (device (lit "Pixel 8") (lit "14 (API )") (lit "5.15.110")), asked4).
Proof.
  repeat (split; [reflexivity|]).
  destruct (getDeviceStatus_fields sdk_fails) as (_ & _ & H).
  rewrite (H _ _ _ _ eq_refl eq_refl eq_refl eq_refl). reflexivity.
Defined.

Lemma getDeviceStatus_rejected_witness :
  model_only [] cmd_model = ok (lit "Pixel 8" ++ [10%N]) /\
  model_only asked1 cmd_release = Rejected (Error (lit "not found")) /\
  run model_only (getDeviceStatus (Some kernelsu_exec))
  = (Returned (device (lit "Pixel 8") (lit "14") (lit "Unknown")), asked2).
Proof.
  repeat (split; [reflexivity|]).
  destruct (getDeviceStatus_rejected model_only) as (_ & H & _).
  rewrite (H _ _ eq_refl eq_refl). reflexivity.
Defined.

End DeviceWitnesses.

(** ** Opening a link and rebooting *)

Section FireAndForget.
Import RealAPI.




(** X17.  Without the capability [openLink] opens the URL in a new window
    and [reboot] does nothing; neither issues a command.  With it each
    issues its one command and returns whatever the exit code is; only a
    rejected call is thrown to the caller. *)
Theorem openLink_reboot_unchecked (host : Host) (url : jsstring) :
  let cmdOpen :=
    lit "am start -a android.intent.action.VIEW -d " ++ dq ++ escape_quotes url ++ dq in
  run host (openLink None url) = (Returned tt, [EvOpen url (lit "_blank")]) /\
  run host (reboot None) = (Returned tt, []) /\
  run host (openLink (Some kernelsu_exec) url)
  = (match host [] cmdOpen with Resolved _ => Returned tt | Rejected e => Thrown e end,
     [EvExec cmdOpen]) /\
  run host (reboot (Some kernelsu_exec))
  = (match host [] (lit "reboot") with Resolved _ => Returned tt | Rejected e => Thrown e end,
     [EvExec (lit "reboot")]).
Proof.
  intros cmdOpen. split; [reflexivity|]. split; [reflexivity|]. split.
  - unfold openLink. run_step. fold cmdOpen. destruct (host [] cmdOpen); reflexivity.
  - unfold reboot. run_step. destruct (host [] (lit "reboot")); reflexivity.
Qed.

End FireAndForget.

(** ** Facts about the pattern matcher *)

Section RegexFacts.
Import Regex.

(** A literal run matches itself. *)
Lemma run_text {A} (s : jsstring) : forall prev rest cap (k : option N -> jsstring -> option jsstring -> option A),
  run (text s) prev (s ++ rest) cap k = k (after_reading prev s) rest cap.
Proof.
  induction s as [|c s IH]; intros prev rest cap k; [reflexivity|].
  change (text (c :: s)) with (Seq (chr c) (text s)).
  cbn [run chr app]. rewrite N.eqb_refl. apply IH.
Qed.

(** A greedy star that can read all of [v] and no further, before a
    continuation that accepts there. *)
Lemma star_all {A} (p : N -> bool) (v rest : jsstring) (k : option N -> jsstring -> option A) a :
  forallb p v = true ->
  match rest with [] => True | c :: _ => p c = false end ->
  forall prev, k (after_reading prev v) rest = Some a ->
  star p prev (v ++ rest) k = Some a.
Proof.
  intros Hv Hrest. induction v as [|c v IH]; intros prev Hk.
  - cbn [app]. cbn in Hk. destruct rest as [|c rest]; cbn [star]; [exact Hk|].
    now rewrite Hrest.
  - cbn [forallb] in Hv. apply andb_prop in Hv as [Hc Hv].
    cbn [app star]. rewrite Hc. now rewrite (IH Hv (Some c) Hk).
Qed.

(** What a successful bounded repetition has read. *)
Lemma rep_sound {A} (p : N -> bool) (hi : nat) : forall lo prev s (k : option N -> jsstring -> option A) a,
  rep p lo hi prev s k = Some a ->
  exists n prev', lo <= n <= hi /\ n <= length s /\ forallb p (firstn n s) = true /\
                  k prev' (skipn n s) = Some a.
Proof.
  induction hi as [|hi IH]; intros lo prev s k a H; cbn [rep] in H.
  - destruct lo; [|discriminate]. exists 0, prev. repeat split; try lia. exact H.
  - assert (Hstop : match lo with O => k prev s | S _ => None end = Some a ->
              exists n prev', lo <= n <= S hi /\ n <= length s /\
                forallb p (firstn n s) = true /\ k prev' (skipn n s) = Some a).
    { destruct lo; [|discriminate]. intros Hk. exists 0, prev. repeat split; try lia. exact Hk. }
    destruct s as [|c s']; [now apply Hstop|].
    destruct (p c) eqn:Hc; [|now apply Hstop].
    destruct (rep p (Nat.pred lo) hi (Some c) s' k) as [a'|] eqn:E; [|now apply Hstop].
    injection H as <-. apply IH in E as (n & prev' & Hn & Hlen & Hall & Hk).
    exists (S n), prev'. cbn [firstn skipn forallb length]. rewrite Hc, Hall.
    repeat split; try lia. exact Hk.
Qed.

Lemma star_sound {A} (p : N -> bool) (s : jsstring) : forall prev (k : option N -> jsstring -> option A) a,
  star p prev s k = Some a -> exists prev' s', k prev' s' = Some a.
Proof.
  induction s as [|c s IH]; intros prev k a H; cbn [star] in H; [eauto|].
  destruct (p c); [|eauto].
  destruct (star p (Some c) s k) eqn:E; [|eauto].
  injection H as <-. eapply IH. exact E.
Qed.

(** A pattern without a group hands the capture on as it got it. *)
Lemma run_groupless {A} (r : regex) : forall prev s cap (k : option N -> jsstring -> option jsstring -> option A) a,
  groupless r = true -> run r prev s cap k = Some a ->
  exists prev' s', k prev' s' cap = Some a.
Proof.
  induction r as [|p|r1 IH1 r2 IH2|r1 IH1 r2 IH2|r1 IH1|p|p lo hi|r1 IH1|m|m];
    intros prev s cap k a Hg H; cbn [run groupless] in *.
  - eauto.
  - destruct s as [|c s]; [discriminate|]. destruct (p c); [eauto|discriminate].
  - apply andb_prop in Hg as [Hg1 Hg2].
    apply IH1 in H as (prev' & s' & H); [|exact Hg1]. now apply IH2 in H.
  - apply andb_prop in Hg as [Hg1 Hg2].
    destruct (run r1 prev s cap k) eqn:E.
    + injection H as <-. now apply IH1 in E.
    + now apply IH2 in H.
  - destruct (run r1 prev s cap k) eqn:E.
    + injection H as <-. now apply IH1 in E.
    + eauto.
  - apply star_sound in H as (prev' & s' & H). eauto.
  - apply rep_sound in H as (n & prev' & _ & _ & _ & H). eauto.
  - discriminate.
  - destruct prev as [c|]; [|eauto]. destruct (m && is_line_terminator c); [eauto|discriminate].
  - destruct s as [|c s]; [eauto|]. destruct (m && is_line_terminator c); [eauto|discriminate].
Qed.

(** A successful search is a successful match somewhere. *)
Lemma search_sound (r : regex) (s : jsstring) : forall prev cap,
  search r prev s = Some cap ->
  exists prev' s', run r prev' s' None (fun _ _ c => Some c) = Some cap.
Proof.
  induction s as [|c s IH]; intros prev cap H; cbn [search] in H.
  - destruct (run r prev [] None _) eqn:E; [|discriminate]. injection H as <-. eauto.
  - destruct (run r prev (c :: s) None _) eqn:E.
    + injection H as <-. eauto.
    + eapply IH. exact H.
Qed.

End RegexFacts.

Section Captures.
Import Regex.

Lemma groupless_seq (rs : list regex) :
  forallb groupless rs = true -> groupless (seq rs) = true.
Proof.
  induction rs as [|r rs IH]; cbn [forallb seq fold_right groupless]; [reflexivity|].
  intros [Hr Hrs]%andb_prop. fold (seq rs). now rewrite Hr, IH.
Qed.

Lemma run_group_rep {A} (p : N -> bool) (lo hi : nat) prev s cap
    (k : option N -> jsstring -> option jsstring -> option A) a :
  run (Group (Rep p lo hi)) prev s cap k = Some a ->
  exists m prev' s',
    lo <= length m <= hi /\ forallb p m = true /\ k prev' s' (Some m) = Some a.
Proof.
  cbn [run]. intros H. apply rep_sound in H as (n & prev' & Hn & Hlen & Hall & Hk).
  exists (firstn n s), prev', (skipn n s).
  rewrite length_skipn in Hk. replace (length s - (length s - n)) with n in Hk by lia.
  rewrite length_firstn. repeat split; try lia; assumption.
Qed.

(** The group of a pattern made of a groupless part, a group around a
    bounded repetition of a class, and a groupless part. *)
Lemma capture_of_seq (pre post : list regex) (p : N -> bool) (lo hi : nat) :
  forallb groupless pre = true -> forallb groupless post = true ->
  forall prev s cap,
    run (seq (pre ++ Group (Rep p lo hi) :: post)) prev s None (fun _ _ c => Some c) = Some cap ->
    exists m, cap = Some m /\ lo <= length m <= hi /\ forallb p m = true.
Proof.
  intros Hpre Hpost.
  induction pre as [|r pre IH]; intros prev s cap H.
  - cbn [app seq fold_right] in H. fold (seq post) in H.
    change (run (Seq (Group (Rep p lo hi)) (seq post)) prev s None (fun _ _ c => Some c))
      with (run (Group (Rep p lo hi)) prev s None
              (fun prev' s' cap' => run (seq post) prev' s' cap' (fun _ _ c => Some c))) in H.
    apply run_group_rep in H as (m & prev' & s' & Hlen & Hall & H).
    apply run_groupless in H as (prev'' & s'' & H); [|now apply groupless_seq].
    injection H as <-. eauto.
  - cbn [forallb] in Hpre. apply andb_prop in Hpre as [Hr Hpre].
    cbn [app seq fold_right] in H. fold (seq (pre ++ Group (Rep p lo hi) :: post)) in H.
    cbn [run] in H. apply run_groupless in H as (prev' & s' & H); [|exact Hr].
    eapply IH; eassumption.
Qed.

Lemma groupless_text_i (s : jsstring) : groupless (text_i s) = true.
Proof.
  unfold text_i. apply groupless_seq. induction s; [reflexivity | exact IHs].
Qed.

Lemma exec1_settings (s m : jsstring) :
  exec1 Patterns.settings s = Some m -> 6 <= length m <= 8 /\ forallb is_hex m = true.
Proof.
  unfold exec1. destruct (search Patterns.settings None s) as [cap|] eqn:E; [|discriminate].
  intros ->. apply search_sound in E as (prev & s' & E).
  change Patterns.settings with
    (seq ([ Opt (Char is_quote);
            Alt (text_i (lit "android.theme.customization.system_palette"))
                (text_i (lit "source_color"));
            Opt (Char is_quote); Star is_white_space; chr_i 58; Star is_white_space;
            Opt (Char is_quote); Opt (chr_i 35) ]
          ++ Group (Rep is_hex 6 8) :: [Opt (Char is_quote)])) in E.
  apply capture_of_seq in E as (m' & [= <-] & Hlen & Hall); [auto| |reflexivity].
  cbn [forallb groupless]. now rewrite !groupless_text_i.
Qed.

Lemma exec1_wallpaper (s m : jsstring) :
  exec1 Patterns.wallpaper s = Some m -> length m = 8 /\ forallb is_hex m = true.
Proof.
  unfold exec1. destruct (search Patterns.wallpaper None s) as [cap|] eqn:E; [|discriminate].
  intros ->. apply search_sound in E as (prev & s' & E).
  change Patterns.wallpaper with
    (seq ([text_i (lit "mMainColor=0x")] ++ Group (Rep is_hex 8 8) :: [])) in E.
  apply capture_of_seq in E as (m' & [= <-] & Hlen & Hall); [split; [lia|auto]| |reflexivity].
  cbn [forallb]. now rewrite groupless_text_i.
Qed.

Lemma search_after_start (r : regex) (s : jsstring) : forall c,
  search (Seq (Bol false) r) (Some c) s = None.
Proof.
  induction s as [|d s IH]; intros c; cbn [search run andb]; [reflexivity | apply IH].
Qed.

(** What the pattern of the theme property accepts. *)
Lemma test_property (t : jsstring) :
  test Patterns.property t = true ->
  exists m, (t = m \/ t = 35%N :: m) /\ 6 <= length m <= 8 /\ forallb is_hex m = true.
Proof.
  unfold test.
  destruct (search Patterns.property None t) as [cap|] eqn:E; [intros _|discriminate].
  change Patterns.property with
    (Seq (Bol false) (seq [Opt (chr 35); Rep is_hex 6 8; Eol false])) in E.
  assert (Hrun : run (seq [Opt (chr 35); Rep is_hex 6 8; Eol false]) None t None
                   (fun _ _ c => Some c) = Some cap).
  { destruct t as [|c t']; cbn [search] in E.
    - cbn [run] in E. now destruct (run _ None [] None _).
    - cbn [run] in E. rewrite search_after_start in E.
      now destruct (run _ None (c :: t') None _). }
  clear E.
  assert (Htail : forall prev s,
            run (seq [Rep is_hex 6 8; Eol false]) prev s None (fun _ _ c => Some c) = Some cap ->
            6 <= length s <= 8 /\ forallb is_hex s = true).
  { intros prev s H. cbn [seq fold_right run] in H.
    apply rep_sound in H as (n & prev' & Hn & Hlen & Hall & H).
    destruct (skipn n s) eqn:Es; [|discriminate].
    assert (Hfull : firstn n s = s).
    { rewrite <- (firstn_skipn n s) at 2. rewrite Es. now rewrite app_nil_r. }
    rewrite Hfull in Hall. split; [|exact Hall].
    apply (f_equal (@length N)) in Es. rewrite length_skipn in Es. cbn in Es. lia. }
  cbn [seq fold_right] in Hrun. cbn [run] in Hrun. fold (seq [Rep is_hex 6 8; Eol false]) in Hrun.
  destruct (run (chr 35) None t None _) eqn:E1.
  - injection Hrun as <-. cbn [chr run] in E1.
    destruct t as [|c t']; [discriminate|].
    destruct (N.eqb_spec 35 c) as [<-|]; [|discriminate].
    exists t'. split; [now right|]. eapply Htail. exact E1.
  - exists t. split; [now left|]. eapply Htail. exact Hrun.
Qed.

End Captures.

(** ** The shape of an accent colour *)

Section ColorShape.
Import Color.

Lemma forallb_skipn {A} (p : A -> bool) (n : nat) (l : list A) :
  forallb p l = true -> forallb p (skipn n l) = true.
Proof.
  revert l. induction n as [|n IH]; intros [|x l]; cbn [skipn forallb]; try tauto.
  intros [_ H]%andb_prop. now apply IH.
Qed.

Lemma strip_alpha_shape (m : jsstring) :
  6 <= length m <= 8 -> forallb Regex.is_hex m = true ->
  hex_color 6 7 (strip_alpha m) /\ (length m = 8 -> hex_color 6 6 (strip_alpha m)).
Proof.
  intros Hlen Hall. unfold strip_alpha.
  destruct (Nat.eqb_spec (length m) 8) as [E|E].
  - assert (H6 : hex_color 6 6 (lit "#" ++ substring_from 2 m)).
    { exists (substring_from 2 m). unfold substring_from.
      rewrite length_skipn, E. repeat split; try lia. now apply forallb_skipn. }
    split; [|intros _; exact H6].
    destruct H6 as (d & -> & Hd & Hh). exists d. repeat split; try lia; assumption.
  - split; [|intros E'; contradiction].
    exists m. repeat split; try lia; assumption.
Qed.

Lemma is_rgb_hex_color (color : jsstring) : is_rgb color = true -> hex_color 6 6 color.
Proof.
  destruct color as [|c digits]; [discriminate|]. cbn [is_rgb].
  destruct (N.eqb_spec c 35) as [->|Hc].
  - intros [Hlen Hall]%andb_prop. apply Nat.eqb_eq in Hlen.
    exists digits. repeat split; try lia; assumption.
  - destruct c as [|p]; [discriminate|].
    do 6 (destruct p as [p|p|]; try discriminate); congruence.
Qed.

Lemma first_some_In {A B} (f : A -> option B) (l : list A) (b : B) :
  first_some f l = Some b -> exists x, In x l /\ f x = Some b.
Proof.
  intros (before & x & after & -> & _ & Hx)%first_some_Some.
  exists x. split; [apply in_or_app; right; now left | exact Hx].
Qed.

Lemma hex_not_hash (c : N) (m : jsstring) :
  Regex.is_hex c = true -> startsWith (lit "#") (c :: m) = false.
Proof.
  intros Hc. change (lit "#") with [35%N]. cbn [startsWith].
  destruct (N.eqb_spec 35 c) as [<-|]; [discriminate Hc | reflexivity].
Qed.

Lemma from_settings_shape (out color : jsstring) :
  from_settings out = Some color -> hex_color 6 7 color.
Proof.
  unfold from_settings. destruct (nonempty out); [|discriminate].
  destruct (Regex.exec1 Patterns.settings out) as [m|] eqn:E; [|discriminate].
  destruct (nonempty m); [|discriminate]. intros H.
  assert (color = strip_alpha m) as -> by congruence.
  apply exec1_settings in E as [Hlen Hall]. now apply strip_alpha_shape.
Qed.

Lemma from_wallpaper_shape (out color : jsstring) :
  from_wallpaper out = Some color -> hex_color 6 6 color.
Proof.
  unfold from_wallpaper. destruct (nonempty out); [|discriminate].
  destruct (Regex.exec1 Patterns.wallpaper out) as [m|] eqn:E; [|discriminate].
  destruct (nonempty m); [|discriminate]. intros H.
  assert (color = strip_alpha m) as -> by congruence.
  apply exec1_wallpaper in E as [Hlen Hall].
  apply strip_alpha_shape; [lia | exact Hall | exact Hlen].
Qed.

Lemma from_overlays_shape (out color : jsstring) :
  from_overlays out = Some color -> hex_color 6 6 color.
Proof.
  unfold from_overlays. destruct (nonempty out); [|discriminate].
  intros (line & _ & Hline)%first_some_In. unfold from_line in Hline.
  destruct (includes (lit "[x]") line); [|discriminate].
  apply first_some_In in Hline as ([pkg c] & Hin & Hc). cbn [fst snd] in Hc.
  destruct (includes pkg line); [|discriminate].
  assert (c = color) as <- by congruence.
  apply is_rgb_hex_color.
  assert (Hall : forallb (fun e => is_rgb e.2) OVERLAY_COLOR_MAP = true) by reflexivity.
  rewrite forallb_forall in Hall. exact (Hall _ Hin).
Qed.

Lemma from_property_shape (out color : jsstring) :
  from_property out = Some color -> hex_color 6 8 color.
Proof.
  unfold from_property. destruct (nonempty out); [|discriminate]. cbv zeta.
  destruct (Regex.test Patterns.property (trim out)) eqn:E; [|discriminate].
  apply test_property in E as (m & Ht & Hlen & Hall). intros H.
  exists m. split; [|split; assumption].
  destruct Ht as [Ht|Ht]; rewrite Ht in H.
  - destruct m as [|c m]; [cbn in Hlen; lia|].
    cbn [forallb] in Hall. apply andb_prop in Hall as [Hc _].
    rewrite (hex_not_hash c m Hc) in H. congruence.
  - change (startsWith (lit "#") (35%N :: m)) with true in H. cbv iota in H.
    change (lit "#" ++ m) with (35%N :: m). congruence.
Qed.

(** X18.  Every colour that [fetchSystemColor] returns is a hash followed
    by six, seven or eight hex digits.  By source: the settings key gives a
    hash and six or seven digits, the wallpaper dump and the overlay table a
    hash and six digits, the theme property a hash and six to eight
    digits. *)
Theorem fetchSystemColor_shape (host : Host) (color : jsstring) :
  (fst (run host (RealAPI.fetchSystemColor (Some kernelsu_exec))) = Returned (Some color) ->
   hex_color 6 8 color) /\
  (forall out, from_settings out = Some color -> hex_color 6 7 color) /\
  (forall out, from_wallpaper out = Some color -> hex_color 6 6 color) /\
  (forall out, from_overlays out = Some color -> hex_color 6 6 color) /\
  (forall out, from_property out = Some color -> hex_color 6 8 color).
Proof.
  assert (Hwiden : forall lo hi c, hex_color lo hi c -> 6 <= lo -> hi <= 8 -> hex_color 6 8 c).
  { intros lo hi c (d & -> & Hd & Hh) Hlo Hhi. exists d. repeat split; try lia; assumption. }
  split; [|repeat split; intros out;
           [apply from_settings_shape | apply from_wallpaper_shape
           | apply from_overlays_shape | apply from_property_shape]].
  intros Hcolor. rewrite fetchSystemColor_run in Hcolor.
  destruct (host [] cmd_settings) as [r1|]; [|discriminate].
  destruct (from_settings (stdout r1)) as [c1|] eqn:E1.
  { assert (c1 = color) as -> by (cbn in Hcolor; congruence).
    eapply Hwiden; [eapply from_settings_shape; exact E1|lia|lia]. }
  destruct (host asked1 cmd_wallpaper) as [r2|]; [|discriminate].
  destruct (from_wallpaper (stdout r2)) as [c2|] eqn:E2.
  { assert (c2 = color) as -> by (cbn in Hcolor; congruence).
    eapply Hwiden; [eapply from_wallpaper_shape; exact E2|lia|lia]. }
  destruct (host asked2 cmd_overlays) as [r3|]; [|discriminate].
  destruct (from_overlays (stdout r3)) as [c3|] eqn:E3.
  { assert (c3 = color) as -> by (cbn in Hcolor; congruence).
    eapply Hwiden; [eapply from_overlays_shape; exact E3|lia|lia]. }
  destruct (host asked3 cmd_property) as [r4|]; [|discriminate].
  destruct (from_property (stdout r4)) as [c4|] eqn:E4; [|discriminate].
  assert (c4 = color) as -> by (cbn in Hcolor; congruence).
  eapply from_property_shape. exact E4.
Qed.

End ColorShape.

(** ** The version of the installed module *)

Section Version.
Context {B : Builtins} {C : Constants}.

Lemma lastIndexOf_from_absent (c : N) (s : jsstring) : forall i found,
  forallb (fun d => negb (d =? c)%N) s = true -> lastIndexOf_from c i s found = found.
Proof.
  induction s as [|d s IH]; intros i found H; cbn [lastIndexOf_from forallb] in *; [reflexivity|].
  apply andb_prop in H as [Hd Hs]. apply negb_true_iff in Hd. rewrite Hd. now apply IH.
Qed.

Lemma lastIndexOf_from_app (c : N) (s1 s2 : jsstring) : forall i found,
  lastIndexOf_from c i (s1 ++ s2) found
  = lastIndexOf_from c (i + Z.of_nat (length s1)) s2 (lastIndexOf_from c i s1 found).
Proof.
  induction s1 as [|d s1 IH]; intros i found; cbn [app lastIndexOf_from length].
  - f_equal. lia.
  - rewrite IH. f_equal. lia.
Qed.

(** The directory of a path: what comes before its last slash. *)
Lemma directory_of_path (dir name : jsstring) :
  forallb (fun d => negb (d =? 47)%N) name = true ->
  substring_to (lastIndexOf 47 (dir ++ 47%N :: name)) (dir ++ 47%N :: name) = dir.
Proof.
  intros Hname. unfold lastIndexOf. rewrite lastIndexOf_from_app.
  cbn [lastIndexOf_from]. rewrite N.eqb_refl.
  rewrite lastIndexOf_from_absent by exact Hname.
  unfold substring_to. rewrite Z.add_0_l, Nat2Z.id.
  rewrite firstn_app, Nat.sub_diag, firstn_all. cbn [firstn]. apply app_nil_r.
Qed.

Lemma search_first (r : Regex.regex) (prev : option N) (s : jsstring) cap :
  Regex.run r prev s None (fun _ _ c => Some c) = Some cap -> Regex.search r prev s = Some cap.
Proof. intros H. destruct s; cbn [Regex.search]; now rewrite H. Qed.

(** The version pattern on an output that starts with a version line. *)
Lemma version_line_match (v rest : jsstring) :
  v <> [] -> forallb Regex.is_dot v = true ->
  match rest with [] => True | c :: _ => is_line_terminator c = true end ->
  Regex.search Patterns.version_line None (lit "version=" ++ v ++ rest) = Some (Some v).
Proof.
  intros Hv Hdot Hrest. apply search_first.
  change Patterns.version_line with
    (Regex.Seq (Regex.Bol true)
       (Regex.Seq (Regex.text (lit "version="))
          (Regex.seq [Regex.Group (Regex.Seq (Regex.Char Regex.is_dot) (Regex.Star Regex.is_dot));
                      Regex.Eol true]))).
  cbn [Regex.run]. rewrite run_text.
  destruct v as [|c v]; [contradiction|].
  cbn [forallb] in Hdot. apply andb_prop in Hdot as [Hc Hdot].
  cbn [Regex.seq fold_right Regex.run app]. rewrite Hc.
  apply star_all; [exact Hdot| |].
  - destruct rest as [|d rest]; [exact I|]. unfold Regex.is_dot. now rewrite Hrest.
  - replace (length (c :: v ++ rest) - length rest) with (length (c :: v))
      by (cbn [length]; rewrite length_app; lia).
    rewrite (firstn_app (length (c :: v)) (c :: v) rest : firstn _ (c :: v ++ rest) = _).
    rewrite firstn_all, Nat.sub_diag. cbn [firstn]. rewrite app_nil_r.
    destruct rest as [|d rest]; [reflexivity|]. cbn [andb]. now rewrite Hrest.
Qed.

End Version.

Section VersionService.
Context {B : Builtins} {C : Constants}.

Lemma getVersion_run (host : Host) :
  run host (RealAPI.getVersion (Some kernelsu_exec))
  = (Returned
       match host [] cmd_version with
       | Rejected _ => APP_VERSION
       | Resolved r =>
           if (errno r =? 0)%Z && nonempty (stdout r) then
             match Regex.exec1 Patterns.version_line (stdout r) with
             | Some m => trim m
             | None => APP_VERSION
             end
           else APP_VERSION
       end,
     [EvExec cmd_version]).
Proof.
  unfold RealAPI.getVersion. cbv zeta. fold cmd_version. rewrite run_try_exec.
  destruct (host [] cmd_version) as [r|e]; [|reflexivity].
  rewrite run_from_try_or. unfold Regex.exec1.
  destruct ((errno r =? 0)%Z && nonempty (stdout r)); [|reflexivity].
  destruct (Regex.search Patterns.version_line None (stdout r)) as [[m|]|]; reflexivity.
Qed.

(** X19.  [getVersion] returns whatever happens: the compiled-in version
    without the capability, on a rejected call, on a non-zero exit, on empty
    output and on output without a version line.  It reads [module.prop] in
    the directory of the binary: the path of the binary up to its last
    slash, and the root directory when that path has no slash. *)
Theorem getVersion_fail_soft (host : Host) :
  run host (RealAPI.getVersion None) = (Returned APP_VERSION, []) /\
  snd (run host (RealAPI.getVersion (Some kernelsu_exec))) = [EvExec cmd_version] /\
  (forall ksuExec, exists v, fst (run host (RealAPI.getVersion ksuExec)) = Returned v) /\
  (forall e, host [] cmd_version = Rejected e ->
     fst (run host (RealAPI.getVersion (Some kernelsu_exec))) = Returned APP_VERSION) /\
  (forall r, host [] cmd_version = Resolved r ->
     errno r <> 0%Z \/ stdout r = [] \/ Regex.exec1 Patterns.version_line (stdout r) = None ->
     fst (run host (RealAPI.getVersion (Some kernelsu_exec))) = Returned APP_VERSION) /\
  (forall dir name, PATHS_BINARY = dir ++ 47%N :: name ->
     forallb (fun d => negb (d =? 47)%N) name = true ->
     cmd_version = lit "grep " ++ dq ++ lit "^version=" ++ dq ++ lit " " ++ dq
                   ++ dir ++ lit "/module.prop" ++ dq) /\
  (forallb (fun d => negb (d =? 47)%N) PATHS_BINARY = true ->
   cmd_version = lit "grep " ++ dq ++ lit "^version=" ++ dq ++ lit " " ++ dq
                 ++ lit "/module.prop" ++ dq).
Proof.
  split; [reflexivity|]. split; [now rewrite getVersion_run|].
  split; [|split; [|split; [|split]]].
  - intros [exec|]; [|eexists; reflexivity].
    unfold RealAPI.getVersion, run. rewrite run_from_try_or.
    destruct (run_from host [] _) as [[[v|]|e] log]; eexists; reflexivity.
  - intros e He. now rewrite getVersion_run, He.
  - intros r Hr Hfail. rewrite getVersion_run, Hr. cbn [fst]. f_equal.
    destruct Hfail as [Hne|[Hout|Hno]].
    + apply Z.eqb_neq in Hne. now rewrite Hne.
    + rewrite Hout. cbn [nonempty]. now rewrite andb_false_r.
    + rewrite Hno. now destruct ((errno r =? 0)%Z && nonempty (stdout r)).
  - intros dir name Hpath Hname. unfold cmd_version. rewrite Hpath.
    now rewrite directory_of_path.
  - intros Hno. unfold cmd_version, lastIndexOf.
    rewrite lastIndexOf_from_absent by exact Hno. reflexivity.
Qed.

(** X20.  When the command exits with zero and its output starts with a
    line [version=V], [getVersion] returns [V] without the blanks around
    it. *)
Theorem getVersion_reads_line (host : Host) (r : KsuExecResult) (v rest : jsstring)
    (Hhost : host [] cmd_version = Resolved r)
    (Hexit : errno r = 0%Z)
    (Hout : stdout r = lit "version=" ++ v ++ rest)
    (Hv : v <> [])
    (Hdot : forallb Regex.is_dot v = true)
    (Hrest : match rest with [] => True | c :: _ => is_line_terminator c = true end) :
  run host (RealAPI.getVersion (Some kernelsu_exec)) = (Returned (trim v), [EvExec cmd_version]).
Proof.
  rewrite getVersion_run, Hhost, Hexit, Hout. unfold Regex.exec1.
  rewrite (version_line_match v rest Hv Hdot Hrest).
  reflexivity.
Qed.

End VersionService.

Section VersionWitnesses.
Import Reference.

Lemma getVersion_fail_soft_witness :
  PATHS_BINARY = lit "/data/adb/modules/meta-hybrid" ++ 47%N :: lit "meta-hybrid" /\
  forallb (fun d => negb (d =? 47)%N) (lit "meta-hybrid") = true /\
  cmd_version = lit "grep " ++ dq ++ lit "^version=" ++ dq ++ lit " " ++ dq
                ++ lit "/data/adb/modules/meta-hybrid" ++ lit "/module.prop" ++ dq /\
  fst (run full_disk (RealAPI.getVersion (Some kernelsu_exec))) = Returned (lit "v0.0.0").
Proof.
  destruct (getVersion_fail_soft (B := builtins) (C := constants) full_disk)
    as (_ & _ & _ & _ & Hfail & Hdir & _).
  split; [reflexivity|]. split; [reflexivity|]. split.
  - exact (Hdir (lit "/data/adb/modules/meta-hybrid") (lit "meta-hybrid") eq_refl eq_refl).
  - apply (Hfail disk_full eq_refl). left. discriminate.
Defined.

Lemma getVersion_reads_line_witness :
  prints version_text [] cmd_version = ok version_text /\
  version_text = lit "version=" ++ lit "v1.2.3 " ++ (10%N :: lit "versionCode=5" ++ [10%N]) /\
  forallb Regex.is_dot (lit "v1.2.3 ") = true /\
  fst (run (prints version_text) (RealAPI.getVersion (Some kernelsu_exec)))
  = Returned (lit "v1.2.3").
Proof.
  assert (Hv : lit "v1.2.3 " <> []) by discriminate.
  split; [reflexivity|]. split; [reflexivity|]. split; [reflexivity|].
  rewrite (getVersion_reads_line (B := builtins) (C := constants) (prints version_text)
             _ (lit "v1.2.3 ") (10%N :: lit "versionCode=5" ++ [10%N])
             eq_refl eq_refl eq_refl Hv eq_refl eq_refl).
  reflexivity.
Defined.

Lemma fetchSystemColor_shape_witness :
  fst (run themed (RealAPI.fetchSystemColor (Some kernelsu_exec)))
  = Returned (Some (lit "#3DDC84")) /\
  hex_color 6 8 (lit "#3DDC84").
Proof.
  split; [reflexivity|].
  destruct (fetchSystemColor_shape themed (lit "#3DDC84")) as [H _].
  apply H. reflexivity.
Defined.

End VersionWitnesses.

(** ** The mock and the switches of the HymoFS tab *)

Section Mock.
Context {B : Builtins} {C : Constants}.

(** X21.  No operation of the mock issues a command, opens a window or
    throws, whatever the host would answer: each waits once and returns its
    fixture; [loadConfig] returns a record equal to the defaults. *)
Theorem MockAPI_offline (host : Host) (config rules : value) (dir moduleId : jsstring) :
  run host MockAPI.loadConfig = (Returned (JObj DEFAULT_CONFIG), [EvDelay 300]) /\
  run host (MockAPI.saveConfig config) = (Returned tt, [EvDelay 500]) /\
  run host MockAPI.resetConfig = (Returned tt, [EvDelay 500]) /\
  (exists modules, run host (MockAPI.scanModules dir) = (Returned (JArr modules), [EvDelay 600])
                   /\ length modules = 3) /\
  run host (MockAPI.saveModuleRules moduleId rules) = (Returned tt, [EvDelay 400]) /\
  (exists d, run host MockAPI.getDeviceStatus = (Returned d, [EvDelay 300])) /\
  run host MockAPI.getVersion = (Returned APP_VERSION, [EvDelay 100]) /\
  run host MockAPI.getStorageUsage = (Returned {| type := JStr (lit "erofs") |}, [EvDelay 300]) /\
  (exists info, run host MockAPI.getSystemInfo = (Returned info, [EvDelay 300])) /\
  run host MockAPI.rmmodHymofs = (Returned tt, [EvDelay 500]).
Proof.
  split.
  { unfold MockAPI.loadConfig, MockAPI.delay. run_step. now rewrite spread_empty_record. }
  repeat split; try reflexivity; eexists; try split; reflexivity.
Qed.

End Mock.

Section Switches.
Context {B : Builtins}.
Import HymoFSTab.

(** X22.  A switch of the HymoFS tab, applied to a configuration record,
    gives a record whose flag is the negation of the truthiness of the old
    one (a missing flag counts as off) and whose other keys are unchanged;
    applied twice, it leaves the flag at the truthiness of the original.
    On [null] it fails. *)
Theorem toggle_flag (flag : jsstring) (config : object) :
  let on := match config !! flag with Some v => truthy v | None => false end in
  toggle flag JNull = None /\
  (exists once : object,
     toggle flag (JObj config) = Some (JObj once) /\
     once !! flag = Some (JBool (negb on)) /\
     (forall k, k <> flag -> once !! k = config !! k) /\
     exists twice : object,
       toggle flag (JObj once) = Some (JObj twice) /\
       twice !! flag = Some (JBool on) /\
       (forall k, k <> flag -> twice !! k = config !! k)).
Proof.
  intros on. split; [reflexivity|].
  exists (<[flag := JBool (negb on)]> config).
  split; [unfold toggle; cbn [get_property]; now rewrite spread_empty_record|].
  split; [apply lookup_insert_eq|].
  split; [intros k Hk; now rewrite lookup_insert_ne by congruence|].
  exists (<[flag := JBool on]> (<[flag := JBool (negb on)]> config)).
  split; [|split].
  - unfold toggle. cbn [get_property]. rewrite spread_empty_record, lookup_insert_eq.
    cbn [truthy]. now rewrite negb_involutive.
  - apply lookup_insert_eq.
  - intros k Hk. now rewrite !lookup_insert_ne by congruence.
Qed.

End Switches.

Section SwitchWitnesses.
Import Reference HymoFSTab.

(** The debug switch on the defaults, which have no such flag. *)
Lemma toggle_flag_witness :
  lit "moduledir" <> lit "hymofs_debug" /\
  exists once : gmap jsstring (json Z),
    toggleDebug (JObj DEFAULT_CONFIG) = Some (JObj once) /\
    once !! lit "hymofs_debug" = Some (JBool true) /\
    once !! lit "moduledir" = Some (JStr (lit "/data/adb/modules")).
Proof.
  assert (Hne : lit "moduledir" <> lit "hymofs_debug") by discriminate.
  split; [exact Hne|].
  destruct (toggle_flag (B := builtins) (lit "hymofs_debug") DEFAULT_CONFIG)
    as (_ & once & Honce & Hflag & Hrest & _).
  exists once. split; [exact Honce|]. split; [exact Hflag|].
  exact (eq_trans (Hrest _ Hne) eq_refl).
Defined.

End SwitchWitnesses.
